(** * Zenith_AI prompting scripts: a shallow embedding and its properties

    The repository is a set of stand-alone Python command-line scripts.
    This development embeds three of them:

    - [concepts/tokens_and_tokenization.py] (module [Tokens]),
    - [concepts/top_p.py]                   (module [TopP]),
    - [concepts/few_shot_prompting.py]      (module [FewShot]),

    on top of a small model of the Python runtime they rely on (module
    [Py]): strings as sequences of code points, exceptions with the
    [Exception] / [BaseException] distinction that [except Exception]
    observes, and a trace monad for the observable effects of a script
    (lines printed, requests issued, the exit status). *)

From Stdlib Require Import List ZArith NArith Bool String Ascii Lia PrimFloat.
Import ListNotations.

Set Implicit Arguments.
Set Warnings "-register-all".

(* ===================================================================== *)
(** * The Python runtime                                                  *)
(* ===================================================================== *)

Module Py.

Local Open Scope Z_scope.

(** ** Strings

    A Python [str] is a sequence of Unicode code points and [len] counts
    code points, so a string is a list of numbers. *)

Definition codepoint := N.
Definition str := list codepoint.

(** A literal of the source, written in ASCII. *)
Definition lit (s : string) : str := map N_of_ascii (list_ascii_of_string s).

Definition len {A} (s : list A) : Z := Z.of_nat (List.length s).

(** Truth value of a string: only the empty string is false. *)
Definition truthy (s : str) : bool :=
  match s with
  | [] => false
  | _ :: _ => true
  end.

(** Truth value of an optional string ([None] is false). *)
Definition opt_truthy (o : option str) : bool :=
  match o with
  | None => false
  | Some s => truthy s
  end.

Fixpoint str_eqb (a b : str) : bool :=
  match a, b with
  | [], [] => true
  | x :: a', y :: b' => N.eqb x y && str_eqb a' b'
  | _, _ => false
  end.

Fixpoint startswith (k m : str) : bool :=
  match k, m with
  | [], _ => true
  | _ :: _, [] => false
  | x :: k', y :: m' => N.eqb x y && startswith k' m'
  end.

(** [contains k m] is the substring test [k in m]. *)
Fixpoint contains (k m : str) : bool :=
  startswith k m ||
  match m with
  | [] => false
  | _ :: m' => contains k m'
  end.

(** [str.lower] restricted to ASCII text: the letters [A]..[Z] move to
    [a]..[z], every other code point is kept.  The full Unicode lowering
    belongs to the interpreter; [Tokens] takes it as a parameter and this
    function is the instance used on ASCII inputs. *)
Definition ascii_lower_cp (c : codepoint) : codepoint :=
  if (65 <=? c)%N && (c <=? 90)%N then (c + 32)%N else c.

Definition ascii_lower (s : str) : str := map ascii_lower_cp s.

(** Code points for which [str.isspace] holds; [str.strip()] removes
    them from both ends. *)
Definition isspace (c : codepoint) : bool :=
  ((9 <=? c) && (c <=? 13) || (28 <=? c) && (c <=? 32)
   || (c =? 133) || (c =? 160) || (c =? 5760)
   || (8192 <=? c) && (c <=? 8202)
   || (c =? 8232) || (c =? 8233) || (c =? 8239) || (c =? 8287)
   || (c =? 12288))%N.

Fixpoint lstrip (s : str) : str :=
  match s with
  | [] => []
  | c :: s' => if isspace c then lstrip s' else s
  end.

Definition strip (s : str) : str := rev (lstrip (rev (lstrip s))).

(** [s.split(sep)] for a one-character separator: the pieces between
    consecutive separators, empty pieces included; never an empty list. *)
Fixpoint split (sep : codepoint) (s : str) : list str :=
  match s with
  | [] => [[]]
  | c :: s' =>
      if N.eqb c sep then [] :: split sep s'
      else match split sep s' with
           | [] => [[c]]
           | piece :: rest => (c :: piece) :: rest
           end
  end.

(** ** Exceptions

    [except Exception] catches the instances of [Exception] and lets the
    other instances of [BaseException] through: [SystemExit] (raised by
    [sys.exit] and by [raise SystemExit(...)]), [KeyboardInterrupt] and
    the like.  An [Exception] carries its class name and the message it
    was built with; [None] where the wording is the interpreter's. *)

Inductive exit_arg :=
| ExitMessage (msg : str)
| ExitCode (code : Z).

Inductive exn :=
| SystemExit (arg : exit_arg)
| Exception (cls : string) (msg : option str)
| BaseException (cls : string).

Definition is_Exception (e : exn) : bool :=
  match e with
  | Exception _ _ => true
  | SystemExit _ | BaseException _ => false
  end.

(** ** Computations that return or raise *)

Inductive result (A : Type) :=
| Ok (a : A)
| Raise (e : exn).

Arguments Ok {A} a.
Arguments Raise {A} e.

Definition rbind {A B} (r : result A) (k : A -> result B) : result B :=
  match r with
  | Ok a => k a
  | Raise e => Raise e
  end.

(** [try: body / except Exception: handler]. *)
Definition try_except {A} (body : result A) (handler : exn -> result A)
  : result A :=
  match body with
  | Ok a => Ok a
  | Raise e => if is_Exception e then handler e else Raise e
  end.

End Py.

Import Py.

Declare Scope result_scope.
Delimit Scope result_scope with result.
Notation "x <- c ;; k" := (rbind c (fun x => k))
  (at level 61, c at next level, right associativity) : result_scope.

(* ===================================================================== *)
(** * Values, events and the script monad                                 *)
(* ===================================================================== *)

Module Script.

Local Open Scope Z_scope.

(** The result of [json.loads]. A JSON object is kept as its list of
    bindings (keys distinct, as in the dictionary the parser builds). *)
Inductive json :=
| JNull
| JBool (b : bool)
| JInt (z : Z)
| JFloat (f : float)
| JStr (s : str)
| JList (items : list json)
| JDict (bindings : list (str * json)).

(** What the scripts print or put in a message. [VFmt] is an f-string
    with a non-string hole: its parts are rendered by [str()] and
    concatenated. *)
Inductive value :=
| VNone
| VStr (s : str)
| VInt (z : Z)
| VExn (e : exn)
| VJson (j : json)
| VFmt (parts : list value).

(** A chat message [{"role": ..., "content": ...}]. *)
Inductive role := system | user | assistant.

Record message := Message { msg_role : role; msg_content : value }.

(** The keyword arguments of [client.chat.completions.create]. *)
Record request := {
  req_model : str;
  req_messages : list message;
  req_temperature : float;
  req_top_p : option float
}.

(** [resp.choices]: each choice carries [message.content], a string or
    [None]. *)
Definition response := list (option str).

(** Observable events of a run, oldest first. [Estimate] marks a call of
    [count_tokens]. *)
Inductive event :=
| Stdout (args : list value)
| Stderr (args : list value)
| Request (r : request)
| Estimate (text model : str).

Definition trace := list event.

(** A script step reads the events so far, may add some, and returns or
    raises. *)
Definition M (A : Type) := trace -> trace * result A.

Definition ret {A} (a : A) : M A := fun t => (t, Ok a).

Definition bind {A B} (m : M A) (k : A -> M B) : M B :=
  fun t =>
    match m t with
    | (t', Ok a) => k a t'
    | (t', Raise e) => (t', Raise e)
    end.

Definition raise {A} (e : exn) : M A := fun t => (t, Raise e).

Definition lift {A} (r : result A) : M A := fun t => (t, r).

Definition emit (ev : event) : M unit := fun t => (t ++ [ev], Ok tt).

Definition history : M trace := fun t => (t, Ok t).

(** [print] to standard output and to standard error ([file=sys.stderr]). *)
Definition print (args : list value) : M unit := emit (Stdout args).
Definition eprint (args : list value) : M unit := emit (Stderr args).

(** [sys.exit(code)]. *)
Definition sys_exit {A} (code : Z) : M A := raise (SystemExit (ExitCode code)).

(** [try: body / except Exception as e: handler e]. *)
Definition try_catch {A} (body : M A) (handler : exn -> M A) : M A :=
  fun t =>
    match body t with
    | (t', Ok a) => (t', Ok a)
    | (t', Raise e) => if is_Exception e then handler e t' else (t', Raise e)
    end.

(** [for x in xs: body x]. *)
Fixpoint for_each {A} (xs : list A) (body : A -> M unit) : M unit :=
  match xs with
  | [] => ret tt
  | x :: xs' => bind (body x) (fun _ => for_each xs' body)
  end.

(** [range(n)]. *)
Definition range (n : Z) : list Z := map Z.of_nat (seq 0 (Z.to_nat n)).

(** How the interpreter ends a script run from an empty trace. A
    [SystemExit] carrying a string prints it on standard error and exits
    with status 1; one carrying an integer exits with it; any other
    uncaught exception ends the process with a traceback and a non-zero
    status. *)
Inductive termination :=
| Exited (status : Z)
| Crashed (e : exn).

Record outcome := { events : trace; ending : termination }.

Definition run {A} (m : M A) : outcome :=
  match m [] with
  | (t, Ok _) => {| events := t; ending := Exited 0 |}
  | (t, Raise (SystemExit (ExitMessage s))) =>
      {| events := t ++ [Stderr [VStr s]]; ending := Exited 1 |}
  | (t, Raise (SystemExit (ExitCode c))) =>
      {| events := t; ending := Exited c |}
  | (t, Raise e) => {| events := t; ending := Crashed e |}
  end.

Definition nonzero_exit (o : outcome) : bool :=
  match ending o with
  | Exited c => negb (c =? 0)
  | Crashed _ => true
  end.

Definition is_request (ev : event) : bool :=
  match ev with Request _ => true | _ => false end.

Definition is_estimate (ev : event) : bool :=
  match ev with Estimate _ _ => true | _ => false end.

Definition is_stdout (ev : event) : bool :=
  match ev with Stdout _ => true | _ => false end.

Definition requests (t : trace) : list request :=
  flat_map (fun ev => match ev with Request r => [r] | _ => [] end) t.

(** A step that only adds events to the trace, and a step that keeps
    a property of all the events seen so far. *)
Definition extends {A} (m : M A) : Prop :=
  forall t, exists added, fst (m t) = t ++ added.

Definition preserves (P : event -> Prop) {A} (m : M A) : Prop :=
  forall t, Forall P t -> Forall P (fst (m t)).

(** ** The OpenAI SDK, as the scripts see it *)

(** A client answers a request; the answer may depend on what happened
    before (sampling is not a function of the request alone). *)
Record client := { create : trace -> request -> result response }.

Record sdk := {
  import_openai : result unit;        (* from openai import OpenAI *)
  getenv_api_key : option str;        (* os.getenv("OPENAI_API_KEY") *)
  OpenAI : str -> result client       (* OpenAI(api_key=...) *)
}.

(** [client.chat.completions.create(...)]: the request goes out, then the
    SDK returns a response or raises. *)
Definition chat_completions_create (c : client) (r : request) : M response :=
  bind history (fun past =>
  bind (emit (Request r)) (fun _ =>
  lift (create c past r))).

(** [resp.choices[0].message.content]. *)
Definition first_choice_content (resp : response) : result (option str) :=
  match resp with
  | [] => Raise (Exception "IndexError" None)
  | c :: _ => Ok c
  end.

Definition value_of_content (c : option str) : value :=
  match c with
  | None => VNone
  | Some s => VStr s
  end.

End Script.

Import Script.

Declare Scope script_scope.
Delimit Scope script_scope with script.
Notation "x <- c ;; k" := (bind c (fun x => k))
  (at level 61, c at next level, right associativity) : script_scope.
Notation "c ;; k" := (bind c (fun _ => k))
  (at level 61, right associativity) : script_scope.

(* ===================================================================== *)
(** * concepts/tokens_and_tokenization.py                                 *)
(* ===================================================================== *)

Module Tokens.

Local Open Scope Z_scope.

(** ** The optional [tiktoken] package

    [import tiktoken] gives the module or raises; [tiktoken.get_encoding]
    gives an encoding or raises; [enc.encode] gives the token ids of a
    text or raises. *)

Definition token := Z.

Record Encoding := { encode : str -> result (list token) }.

Record tiktoken := { get_encoding : str -> result Encoding }.

Record runtime := { import_tiktoken : result tiktoken }.

(** ** The file system, as [load_text] sees it *)

Inductive file_state :=
| Missing                    (* [p.exists()] is false *)
| Readable (content : str)   (* [p.read_text(...)] returns the text *)
| Unreadable (e : exn).      (* exists, but [read_text] raises *)

Definition filesystem := str -> file_state.

(** ** The parsed command line *)

Record args := {
  text : option str;     (* --text *)
  file : option str;     (* --file *)
  model : str;           (* --model, default gpt-4o-mini *)
  show_sample : Z        (* --show-sample, default 0 *)
}.

Section WithLower.

(** [str.lower] of the interpreter. *)
Variable lower : str -> str.

Definition get_encoding_name (model : str) : str :=
  let m := lower model in
  if existsb (fun k => contains k m)
       [lit "gpt-4"; lit "gpt-3.5"; lit "mini"; lit "o1"; lit "omni"]
  then lit "cl100k_base"
  else lit "cl100k_base".

Local Open Scope result_scope.

(** The body of the [try] block of [count_tokens]. *)
Definition exact_count (rt : runtime) (text model : str) : result Z :=
  tk <- import_tiktoken rt ;;
  let enc_name := get_encoding_name model in
  enc <- get_encoding tk enc_name ;;
  toks <- encode enc text ;;
  Ok (len toks).

Definition count_tokens (rt : runtime) (text model : str) : result Z :=
  try_except (exact_count rt text model)
             (fun _ => Ok (Z.max 1 (len text / 4))).

Definition load_text (fs : filesystem) (file text : option str) : result str :=
  let text_or_empty := match text with Some t => t | None => [] end in
  match file with
  | Some f =>
      if truthy f then
        match fs f with
        | Missing =>
            Raise (SystemExit (ExitMessage (lit "File not found: " ++ f)))
        | Readable content => Ok content
        | Unreadable e => Raise e
        end
      else Ok text_or_empty
  | None => Ok text_or_empty
  end.

Local Open Scope script_scope.

Definition main (rt : runtime) (fs : filesystem) (a : args) : M unit :=
  body <- lift (load_text fs (file a) (text a)) ;;
  if negb (truthy body) then
    raise (SystemExit (ExitMessage (lit "Provide --text or --file")))
  else
    emit (Estimate body (model a)) ;;
    n_tokens <- lift (count_tokens rt body (model a)) ;;
    (if 0 <? show_sample a then
       let sample := firstn (Z.to_nat (show_sample a)) body in
       print [VStr (lit "=== Sample ===")] ;;
       print [VStr sample] ;;
       print [VStr (lit "==============" ++ [10%N])]
     else ret tt) ;;
    print [VStr (lit "Model:"); VStr (model a)] ;;
    print [VStr (lit "Characters:"); VInt (len body)] ;;
    print [VStr (lit "Approx tokens:"); VInt n_tokens].

(** ** Vocabulary of the properties *)

(** The test of the [if] in [get_encoding_name]: the lowered name holds
    one of the known family substrings. *)
Definition is_known_family (model : str) : bool :=
  existsb (fun k => contains k (lower model))
    [lit "gpt-4"; lit "gpt-3.5"; lit "mini"; lit "o1"; lit "omni"].

(** The encoding of the final [return] of [get_encoding_name]. *)
Definition default_encoding : str := lit "cl100k_base".

(** Two names that differ by letter case only. *)
Definition same_ignoring_case (m m' : str) : Prop := lower m = lower m'.

(** The exact tokenizer is unavailable or its invocation fails with [e]:
    the import raises, or the encoding cannot be loaded, or encoding the
    text raises. *)
Inductive exact_path_raises (rt : runtime) (text model : str) (e : exn) : Prop :=
| import_raises :
    import_tiktoken rt = Raise e ->
    exact_path_raises rt text model e
| get_encoding_raises tk :
    import_tiktoken rt = Ok tk ->
    get_encoding tk (get_encoding_name model) = Raise e ->
    exact_path_raises rt text model e
| encode_raises tk enc :
    import_tiktoken rt = Ok tk ->
    get_encoding tk (get_encoding_name model) = Ok enc ->
    encode enc text = Raise e ->
    exact_path_raises rt text model e.

(** The exact tokenizer returned the tokens [toks] for the text. *)
Definition exact_path_returns (rt : runtime) (text model : str)
    (toks : list token) : Prop :=
  exists tk enc,
    import_tiktoken rt = Ok tk /\
    get_encoding tk (get_encoding_name model) = Ok enc /\
    encode enc text = Ok toks.

End WithLower.

(** No file path and no inline text on the command line. *)
Definition no_input_supplied (a : args) : Prop :=
  opt_truthy (file a) = false /\ opt_truthy (text a) = false.

(** [str.upper] on ASCII text, to build case variants of a name. *)
Definition ascii_upper_cp (c : codepoint) : codepoint :=
  if (97 <=? c)%N && (c <=? 122)%N then (c - 32)%N else c.

Definition ascii_upper (s : str) : str := map ascii_upper_cp s.

(** ** Sample environments *)

(** No [tiktoken] installed. *)
Definition no_tiktoken : runtime :=
  {| import_tiktoken :=
       Raise (Exception "ModuleNotFoundError" (Some (lit "No module named 'tiktoken'"))) |}.

(** An installed tokenizer that emits one token per code point. *)
Definition per_char_encoding : Encoding :=
  {| encode := fun t => Ok (map Z.of_N t) |}.

Definition per_char_tiktoken : runtime :=
  {| import_tiktoken := Ok {| get_encoding := fun _ => Ok per_char_encoding |} |}.

(** An installed package that does not know the requested encoding. *)
Definition unknown_encoding : runtime :=
  {| import_tiktoken :=
       Ok {| get_encoding := fun _ =>
               Raise (Exception "ValueError" (Some (lit "Unknown encoding"))) |} |}.

(** An installed tokenizer whose [encode] refuses the text. *)
Definition failing_encode : runtime :=
  {| import_tiktoken :=
       Ok {| get_encoding := fun _ =>
               Ok {| encode := fun _ =>
                       Raise (Exception "ValueError" (Some (lit "disallowed special token"))) |} |} |}.

(** A tokenizer whose native code aborts while it encodes, and one
    that aborts while the encoding is loaded: the extension module
    reports it with an exception outside [Exception]. *)
Definition panicking_encode : runtime :=
  {| import_tiktoken :=
       Ok {| get_encoding := fun _ =>
               Ok {| encode := fun _ => Raise (BaseException "PanicException") |} |} |}.

Definition panicking_get_encoding : runtime :=
  {| import_tiktoken :=
       Ok {| get_encoding := fun _ => Raise (BaseException "PanicException") |} |}.


(** A file system with no file at all, and one with a single file. *)
Definition empty_fs : filesystem := fun _ => Missing.

Definition single_file_fs (path content : str) : filesystem :=
  fun p => if str_eqb p path then Readable content else Missing.

End Tokens.

(* ===================================================================== *)
(** * concepts/top_p.py                                                   *)
(* ===================================================================== *)

Module TopP.

Local Open Scope Z_scope.

(** The parsed command line. *)
Record args := {
  prompt : str;            (* --prompt *)
  model : str;             (* --model *)
  top_p : float;           (* --top-p, type=float, default 1.0 *)
  sweep : option str;      (* --sweep, default None *)
  temperature : float;     (* --temperature, type=float, default 0.7 *)
  n : Z                    (* --n, type=int, default 1 *)
}.

(** The test [0.0 <= v <= 1.0] on binary64 floats (false on NaN). *)
Definition in_unit_interval (v : float) : bool :=
  PrimFloat.leb 0%float v && PrimFloat.leb v 1%float.

Section WithFloats.

(** [float(s)] on a string: [None] stands for [ValueError]. *)
Variable py_float : str -> option float.

(** [str(v)] of a float, as an f-string renders it. *)
Variable float_str : float -> str.

(** The loop of [parse_sweep] over the chunks, [vals] being the list
    built so far. *)
Fixpoint parse_chunks (chunks : list str) (vals : list float)
  : result (list float) :=
  match chunks with
  | [] => Ok vals
  | chunk :: rest =>
      let s := strip chunk in
      if negb (truthy s) then parse_chunks rest vals
      else
        match py_float s with
        | None =>
            Raise (SystemExit (ExitMessage
              (lit "Invalid top_p in --sweep: '" ++ s ++ lit "'")))
        | Some v =>
            if negb (in_unit_interval v) then
              Raise (SystemExit (ExitMessage
                (lit "top_p must be between 0.0 and 1.0, got: " ++ float_str v)))
            else parse_chunks rest (vals ++ [v])
        end
  end.

Definition parse_sweep (sweep_str : str) : result (list float) :=
  match parse_chunks (split 44%N sweep_str) [] with
  | Ok [] =>
      Raise (SystemExit (ExitMessage (lit "--sweep provided but empty after parsing")))
  | Ok vals => Ok vals
  | Raise e => Raise e
  end.

Local Open Scope script_scope.

(** One iteration of the inner loop [for i in range(args.n)]. *)
Definition sample (c : client) (a : args) (messages : list message)
    (p_val : float) (i : Z) : M unit :=
  resp <- try_catch
            (chat_completions_create c
               {| req_model := model a;
                  req_messages := messages;
                  req_temperature := temperature a;
                  req_top_p := Some p_val |})
            (fun e =>
               eprint [VFmt [VStr (lit "Request failed at top_p " ++ float_str p_val
                                   ++ lit ": "); VExn e]] ;;
               sys_exit 2) ;;
  content <- lift (first_choice_content resp) ;;
  (if 1 <? n a then print [VFmt [VStr (lit "-- Sample "); VInt (i + 1); VStr (lit " --")]]
   else ret tt) ;;
  print [value_of_content content] ;;
  (if 1 <? n a then print [] else ret tt).

Definition main (env : sdk) (a : args) : M unit :=
  try_catch (lift (import_openai env))
    (fun _ =>
       eprint [VStr (lit "Error: openai package not found. Install with: pip install openai")] ;;
       sys_exit 1) ;;
  let api_key := getenv_api_key env in
  (if negb (opt_truthy api_key) then
     eprint [VStr (lit "Error: Please set OPENAI_API_KEY in your environment.")] ;;
     sys_exit 1
   else ret tt) ;;
  client <- lift (OpenAI env (match api_key with Some k => k | None => [] end)) ;;
  p_vals <- lift (match sweep a with
                  | Some s => if truthy s then parse_sweep s else Ok [top_p a]
                  | None => Ok [top_p a]
                  end) ;;
  let messages :=
    [ Message system (VStr (lit "You are a helpful, concise assistant."));
      Message user (VStr (prompt a)) ] in
  for_each p_vals (fun p_val =>
    print [VStr ([10%N] ++ lit "=== top_p: " ++ float_str p_val
                 ++ lit " (temperature=" ++ float_str (temperature a)
                 ++ lit ") ===" ++ [10%N])] ;;
    for_each (range (n a)) (sample client a messages p_val)).

End WithFloats.

(** ** Vocabulary of the properties *)

(** The SDK is installed, the API key is set and the client [c] could be
    built: the script gets as far as its parameters. *)
Definition ready (env : sdk) (c : client) : Prop :=
  import_openai env = Ok tt /\
  exists key, getenv_api_key env = Some key /\ truthy key = true /\
              OpenAI env key = Ok c.

(** An event that is not a request with a nucleus value outside
    [0.0, 1.0]. *)
Definition within_range (ev : event) : Prop :=
  match ev with
  | Request r => exists v, req_top_p r = Some v /\ in_unit_interval v = true
  | _ => True
  end.

(** ** Sample environments *)

(** A client that always answers with one choice. *)
Definition echo_client : client :=
  {| create := fun _ _ => Ok [Some (lit "ok")] |}.

(** The SDK installed and the API key set. *)
Definition ready_sdk : sdk :=
  {| import_openai := Ok tt;
     getenv_api_key := Some (lit "sk-test");
     OpenAI := fun _ => Ok echo_client |}.

(** A stand-in for [float] on the two literals used below and a
    rendering that is not looked at. *)
Definition sample_float (s : str) : option float :=
  if str_eqb s (lit "0.5") then Some 0.5%float
  else if str_eqb s (lit "1.5") then Some 1.5%float
  else None.

Definition sample_float_str (v : float) : str := lit "<float>".

(** The command line [--prompt Hi --top-p 1.5]. *)
Definition top_p_above_one : args :=
  {| prompt := lit "Hi";
     model := lit "gpt-4o-mini";
     top_p := 1.5%float;
     sweep := None;
     temperature := 0.5%float;
     n := 1 |}.

(** The command line [--prompt Hi --sweep 0.5,1.5]. *)
Definition sweep_above_one : args :=
  {| prompt := lit "Hi";
     model := lit "gpt-4o-mini";
     top_p := 1%float;
     sweep := Some (lit "0.5,1.5");
     temperature := 0.5%float;
     n := 1 |}.

End TopP.

(* ===================================================================== *)
(** * concepts/few_shot_prompting.py                                      *)
(* ===================================================================== *)

Module FewShot.

Local Open Scope Z_scope.

(** An example pair [{"user": ..., "assistant": ...}]. *)
Record example := { ex_user : value; ex_assistant : value }.

(** A text file as [for line in f] goes through it: the lines it
    yields, one after the other, and then either the end of the file or
    an error of the read itself (an undecodable byte, say), which is
    raised only once the lines before it have been handled. *)
Record reading := { yielded : list str; read_error : option exn }.

(** The parsed command line. *)
Record args := {
  instruction : str;             (* --instruction *)
  input : str;                   (* --input *)
  examples_file : option str;    (* --examples-file *)
  model : str;                   (* --model *)
  temperature : float;           (* --temperature *)
  show_prompt : bool             (* --show-prompt *)
}.

Definition nl : codepoint := 10%N.

Definition default_examples : list example :=
  [ {| ex_user := VStr
         (lit "Instruction: Generate a concise email subject (<=8 words)." ++ [nl]
          ++ lit "Input: The team offsite is next Friday; please fill out the dietary form by Wednesday.");
       ex_assistant := VStr (lit "Team offsite: fill dietary form by Wed") |};
    {| ex_user := VStr
         (lit "Instruction: Generate a concise email subject (<=8 words)." ++ [nl]
          ++ lit "Input: Thanks for your purchase" ++ [8212%N]
          ++ lit "your package ships tomorrow with tracking.");
       ex_assistant := VStr (lit "Your order ships tomorrow (tracking inside)") |};
    {| ex_user := VStr
         (lit "Instruction: Generate a concise email subject (<=8 words)." ++ [nl]
          ++ lit "Input: Quick reminder: book your 1:1s for next week.");
       ex_assistant := VStr (lit "Reminder: book next week" ++ [8217%N] ++ lit "s 1:1s") |} ].

(** [key in obj] on a parsed JSON value. *)
Definition json_contains (key : str) (obj : json) : result bool :=
  match obj with
  | JDict bindings => Ok (existsb (fun kv => str_eqb key (fst kv)) bindings)
  | JStr s => Ok (contains key s)
  | JList items =>
      Ok (existsb (fun v => match v with JStr s => str_eqb key s | _ => false end) items)
  | JNull | JBool _ | JInt _ | JFloat _ =>
      Raise (Exception "TypeError" None)
  end.

(** [obj[key]] with a string key on a parsed JSON value. *)
Definition json_getitem (obj : json) (key : str) : result json :=
  match obj with
  | JDict bindings =>
      match find (fun kv => str_eqb key (fst kv)) bindings with
      | Some kv => Ok (snd kv)
      | None => Raise (Exception "KeyError" None)
      end
  | _ => Raise (Exception "TypeError" None)
  end.

Definition role_name (r : role) : str :=
  match r with
  | system => lit "system"
  | user => lit "user"
  | assistant => lit "assistant"
  end.

(** [enumerate(xs, start)]. *)
Fixpoint enumerate {A} (xs : list A) (start : Z) : list (Z * A) :=
  match xs with
  | [] => []
  | x :: xs' => (start, x) :: enumerate xs' (start + 1)
  end.

Section WithFiles.

(** [json.loads]. *)
Variable json_loads : str -> result json.

(** [open(path, "r", encoding="utf-8")]: it raises, or gives the file
    to iterate over. *)
Variable read_lines : str -> result reading.

Local Open Scope result_scope.

(** The loop of [load_examples_jsonl] over the lines, [pairs] being the
    list built so far. *)
Fixpoint load_lines (instruction : str) (lines : list str) (pairs : list example)
  : result (list example) :=
  match lines with
  | [] => Ok pairs
  | line :: rest =>
      let line := strip line in
      if negb (truthy line) then load_lines instruction rest pairs
      else
        obj <- json_loads line ;;
        has_user <- json_contains (lit "user") obj ;;
        has_pair <- (if has_user then json_contains (lit "assistant") obj
                     else Ok false) ;;
        if has_pair then
          u <- json_getitem obj (lit "user") ;;
          a <- json_getitem obj (lit "assistant") ;;
          load_lines instruction rest
            (pairs ++ [{| ex_user := VJson u; ex_assistant := VJson a |}])
        else
          has_input <- json_contains (lit "input") obj ;;
          has_io <- (if has_input then json_contains (lit "output") obj
                     else Ok false) ;;
          if has_io then
            i <- json_getitem obj (lit "input") ;;
            let user_msg :=
              VFmt [VStr (lit "Instruction: " ++ instruction ++ [nl] ++ lit "Input: ");
                    VJson i] in
            o <- json_getitem obj (lit "output") ;;
            load_lines instruction rest
              (pairs ++ [{| ex_user := user_msg; ex_assistant := VJson o |}])
          else
            Raise (Exception "ValueError"
                     (Some (lit "Each JSONL line must have user/assistant or input/output keys")))
  end.

Definition load_examples_jsonl (path instruction : str) : result (list example) :=
  f <- read_lines path ;;
  pairs <- load_lines instruction (yielded f) [] ;;
  match read_error f with
  | Some e => Raise e
  | None =>
      match pairs with
      | [] => Raise (Exception "ValueError" (Some (lit "No examples found in JSONL file")))
      | _ :: _ => Ok pairs
      end
  end.

(** The two [append] calls of one iteration of [for ex in examples]. *)
Definition append_example (messages : list message) (ex : example) : list message :=
  (messages ++ [Message user (ex_user ex)]) ++ [Message assistant (ex_assistant ex)].

(** The local variable [messages] just before the request: the system
    message, the loop over the examples, then the new query. *)
Definition build_messages (examples : list example) (a : args) : list message :=
  let system_msg :=
    Message system (VStr (lit
      "You are a precise assistant. Follow the format implied by examples and adhere to the instruction.")) in
  let messages := [system_msg] in
  let messages := fold_left append_example examples messages in
  let user_query :=
    lit "Instruction: " ++ instruction a ++ [nl] ++ lit "Input: " ++ input a in
  messages ++ [Message user (VStr user_query)].

Local Open Scope script_scope.

(** [main] returns the final value of its local variable [messages]. *)
Definition main (env : sdk) (a : args) : M (list message) :=
  try_catch (lift (import_openai env))
    (fun _ =>
       eprint [VStr (lit "Error: openai package not found. Install with: pip install openai")] ;;
       sys_exit 1) ;;
  let api_key := getenv_api_key env in
  (if negb (opt_truthy api_key) then
     eprint [VStr (lit "Error: Please set OPENAI_API_KEY in your environment.")] ;;
     sys_exit 1
   else ret tt) ;;
  client <- lift (OpenAI env (match api_key with Some k => k | None => [] end)) ;;
  examples <- try_catch
     (lift (match examples_file a with
            | Some path =>
                if truthy path then load_examples_jsonl path (instruction a)
                else Ok default_examples
            | None => Ok default_examples
            end))
     (fun e =>
        eprint [VFmt [VStr (lit "Failed to load examples: "); VExn e]] ;;
        sys_exit 1) ;;
  let messages := build_messages examples a in
  (if show_prompt a then
     print [VStr (lit "=== Messages ===")] ;;
     for_each (enumerate messages 1) (fun im =>
       print [VFmt [VStr (lit "["); VInt (fst im); VStr (lit "] ");
                    VStr (role_name (msg_role (snd im))); VStr (lit ": ");
                    msg_content (snd im)]]) ;;
     print [VStr (lit "================" ++ [nl])]
   else ret tt) ;;
  resp <- try_catch
            (chat_completions_create client
               {| req_model := model a;
                  req_messages := messages;
                  req_temperature := temperature a;
                  req_top_p := None |})
            (fun e =>
               eprint [VFmt [VStr (lit "Request failed: "); VExn e]] ;;
               sys_exit 2) ;;
  content <- lift (first_choice_content resp) ;;
  print [value_of_content content] ;;
  ret messages.

End WithFiles.

(** ** Vocabulary of the properties *)

(** The system message and the live query of [main], as messages. *)
Definition system_message : message :=
  Message system (VStr (lit
    "You are a precise assistant. Follow the format implied by examples and adhere to the instruction.")).

Definition live_query (a : args) : message :=
  Message user
    (VStr (lit "Instruction: " ++ instruction a ++ [nl] ++ lit "Input: " ++ input a)).

Definition is_system_message (m : message) : bool :=
  match msg_role m with
  | system => true
  | _ => false
  end.

(** The request [main] sends for a given message sequence. *)
Definition request_for (a : args) (messages : list message) : request :=
  {| req_model := model a;
     req_messages := messages;
     req_temperature := temperature a;
     req_top_p := None |}.

(** ** The shape the message sequence is meant to have *)

(** What the sequence looks like, read off its description: the system
    message, one user/assistant pair per example in order, the query. *)
Definition conversation (system_msg : message) (examples : list example)
    (query : message) : list message :=
  system_msg
    :: flat_map (fun ex => [Message user (ex_user ex);
                            Message assistant (ex_assistant ex)]) examples
    ++ [query].

(** The roles of such a sequence. *)
Definition conversation_roles (k : nat) : list role :=
  system :: List.concat (repeat [user; assistant] k) ++ [user].

(** ** Sample environments *)

Definition no_json (s : str) : result json :=
  Raise (Exception "JSONDecodeError" None).

Definition no_files (p : str) : result reading :=
  Raise (Exception "FileNotFoundError" None).

(** The SDK installed, the API key set, a client that answers. *)
Definition ready_sdk : sdk :=
  {| import_openai := Ok tt;
     getenv_api_key := Some (lit "sk-test");
     OpenAI := fun _ => Ok {| create := fun _ _ => Ok [Some (lit "Lunch at noon")] |} |}.

Definition sample_args : args :=
  {| instruction := lit "Generate a concise email subject (<=8 words).";
     input := lit "Lunch is at noon.";
     examples_file := None;
     model := lit "gpt-4o-mini";
     temperature := 0.5%float;
     show_prompt := true |}.

End FewShot.

(* ===================================================================== *)
(** * Further vocabulary and sample environments                          *)
(* ===================================================================== *)

Module Scenarios.

Local Open Scope Z_scope.

(** ** The token estimator *)

(** The lines [Tokens.main] prints before its report when
    [--show-sample N] is positive. *)
Definition sample_lines (body : str) (n : Z) : list event :=
  if 0 <? n then
    [ Stdout [VStr (lit "=== Sample ===")];
      Stdout [VStr (firstn (Z.to_nat n) body)];
      Stdout [VStr (lit "==============" ++ [10%N])] ]
  else [].

(** The three lines of the report. *)
Definition report_lines (model body : str) (k : Z) : list event :=
  [ Stdout [VStr (lit "Model:"); VStr model];
    Stdout [VStr (lit "Characters:"); VInt (len body)];
    Stdout [VStr (lit "Approx tokens:"); VInt k] ].

(** A tokenizer interrupted while it encodes. *)
Definition interrupted_encode : Tokens.runtime :=
  {| Tokens.import_tiktoken :=
       Ok {| Tokens.get_encoding := fun _ =>
               Ok {| Tokens.encode := fun _ =>
                       Raise (BaseException "KeyboardInterrupt") |} |} |}.

(** A file system whose only entry exists but cannot be read. *)
Definition locked_fs (path : str) : Tokens.filesystem :=
  fun p => if str_eqb p path
           then Tokens.Unreadable (Exception "PermissionError" None)
           else Tokens.Missing.

(** ** The top-p script *)

(** The request [TopP.main] sends for the value [p_val]. *)
Definition request_with (a : TopP.args) (p_val : float) : request :=
  {| req_model := TopP.model a;
     req_messages :=
       [ Message system (VStr (lit "You are a helpful, concise assistant."));
         Message user (VStr (TopP.prompt a)) ];
     req_temperature := TopP.temperature a;
     req_top_p := Some p_val |}.

(** A client that answers every request with at least one choice. *)
Definition always_answers (c : client) : Prop :=
  forall t r, exists content more, create c t r = Ok (content :: more).

Section TopPVocabulary.

Variable py_float : str -> option float.
Variable float_str : float -> str.

(** The values [TopP.main] goes through: those of [--sweep] when it is
    given and not empty, else the single [--top-p]. *)
Definition values_to_try (a : TopP.args) : result (list float) :=
  match TopP.sweep a with
  | Some s => if truthy s then TopP.parse_sweep py_float float_str s
              else Ok [TopP.top_p a]
  | None => Ok [TopP.top_p a]
  end.

(** A chunk of a sweep that [parse_sweep] lets through: blank, or a
    number of [0.0, 1.0]. *)
Definition acceptable (chunk : str) : Prop :=
  truthy (strip chunk) = false \/
  exists v, py_float (strip chunk) = Some v /\ TopP.in_unit_interval v = true.

(** The numbers of the non-blank chunks, in order. *)
Definition chunk_values (chunks : list str) : list float :=
  flat_map (fun chunk =>
              if truthy (strip chunk) then
                match py_float (strip chunk) with
                | Some v => [v]
                | None => []
                end
              else []) chunks.

(** The banner printed before the samples of one value. *)
Definition banner (a : TopP.args) (p_val : float) : event :=
  Stdout [VStr ([10%N] ++ lit "=== top_p: " ++ float_str p_val
                ++ lit " (temperature=" ++ float_str (TopP.temperature a)
                ++ lit ") ===" ++ [10%N])].

(** The line on standard error when a request fails. *)
Definition failure_line (p_val : float) (e : exn) : event :=
  Stderr [VFmt [VStr (lit "Request failed at top_p " ++ float_str p_val
                      ++ lit ": "); VExn e]].

(** What the script does about the request [r], sent when the events
    so far were [history]: nothing special when the answer has a
    choice; a crash on [resp.choices[0]] when it has none; the failure
    line and exit status 2 when the call raises an error; and it lets
    anything else that is raised through.  [post] is what the run adds
    after the request, [res] how [TopP.main] ends. *)
Definition verdict (c : client) (history : trace) (r : request)
    (post : trace) (res : result unit) : Prop :=
  match create c history r with
  | Ok (_ :: _) => True
  | Ok [] => post = [] /\ res = Raise (Exception "IndexError" None)
  | Raise e =>
      if is_Exception e then
        (exists p_val, req_top_p r = Some p_val /\ post = [failure_line p_val e]) /\
        res = Raise (SystemExit (ExitCode 2))
      else post = [] /\ res = Raise e
  end.

(** Every request among the events [added] after [before] got its
    verdict. *)
Definition judged (c : client) (before added : trace) (res : result unit) : Prop :=
  forall pre r post,
    added = pre ++ Request r :: post -> verdict c (before ++ pre) r post res.

End TopPVocabulary.

(** The line both scripts print when the SDK cannot be imported, and
    when the API key is not set. *)
Definition sdk_missing_line : event :=
  Stderr [VStr (lit "Error: openai package not found. Install with: pip install openai")].

Definition key_missing_line : event :=
  Stderr [VStr (lit "Error: Please set OPENAI_API_KEY in your environment.")].

(** No SDK installed; the SDK installed but no key in the environment. *)
Definition sdk_not_installed : sdk :=
  {| import_openai := Raise (Exception "ModuleNotFoundError" None);
     getenv_api_key := Some (lit "sk-test");
     OpenAI := fun _ => Ok TopP.echo_client |}.

Definition key_not_set : sdk :=
  {| import_openai := Ok tt;
     getenv_api_key := None;
     OpenAI := fun _ => Ok TopP.echo_client |}.

(** A client whose requests time out, and one that answers with no
    choice at all. *)
Definition failing_client : client :=
  {| create := fun _ _ => Raise (Exception "APITimeoutError" None) |}.

Definition mute_client : client :=
  {| create := fun _ _ => Ok [] |}.

(** A client that answers its first request and times out on the next
    ones, and one that answers the first and then has no choice left. *)
Definition flaky_client : client :=
  {| create := fun past _ =>
       if existsb is_request past then Raise (Exception "APITimeoutError" None)
       else Ok [Some (lit "ok")] |}.

Definition fading_client : client :=
  {| create := fun past _ =>
       if existsb is_request past then Ok [] else Ok [Some (lit "ok")] |}.

Definition sdk_with (c : client) : sdk :=
  {| import_openai := Ok tt;
     getenv_api_key := Some (lit "sk-test");
     OpenAI := fun _ => Ok c |}.

(** The command line [--prompt Hi --sweep 0.5,,0.5 --n 2]. *)
Definition sweep_twice : TopP.args :=
  {| TopP.prompt := lit "Hi";
     TopP.model := lit "gpt-4o-mini";
     TopP.top_p := 1%float;
     TopP.sweep := Some (lit "0.5,,0.5");
     TopP.temperature := 0.5%float;
     TopP.n := 2 |}.

(** ** The few-shot script *)

(** The value bound to a key in a JSON object, if any. *)
Definition lookup (key : str) (bindings : list (str * json)) : option json :=
  match find (fun kv => str_eqb key (fst kv)) bindings with
  | Some kv => Some (snd kv)
  | None => None
  end.

Definition has_key (key : str) (bindings : list (str * json)) : bool :=
  match lookup key bindings with
  | Some _ => true
  | None => false
  end.

(** A line that is not blank. *)
Definition nonblank (line : str) : bool := truthy (strip line).

(** The user message built from an [input] value. *)
Definition normalized_input (instruction : str) (i : json) : value :=
  VFmt [VStr (lit "Instruction: " ++ instruction ++ [FewShot.nl] ++ lit "Input: ");
        VJson i].

(** What [--show-prompt] prints before the request. *)
Definition prompt_listing (a : FewShot.args) (messages : list message) : list event :=
  if FewShot.show_prompt a then
    Stdout [VStr (lit "=== Messages ===")]
    :: map (fun im : Z * message =>
              Stdout [VFmt [VStr (lit "["); VInt (fst im); VStr (lit "] ");
                            VStr (FewShot.role_name (msg_role (snd im)));
                            VStr (lit ": "); msg_content (snd im)]])
           (FewShot.enumerate messages 1)
    ++ [Stdout [VStr (lit "================" ++ [FewShot.nl])]]
  else [].

Section FewShotVocabulary.

Variable json_loads : str -> result json.
Variable read_lines : str -> result FewShot.reading.

(** The examples [FewShot.main] works with: those of
    [--examples-file] when it is given and not empty, else the
    built-in ones. *)
Definition examples_to_use (a : FewShot.args) : result (list FewShot.example) :=
  match FewShot.examples_file a with
  | Some path =>
      if truthy path
      then FewShot.load_examples_jsonl json_loads read_lines path (FewShot.instruction a)
      else Ok FewShot.default_examples
  | None => Ok FewShot.default_examples
  end.

End FewShotVocabulary.

(** A two-line examples file, one line in each key style, and the
    parser on its two lines. *)
Definition two_examples_file (path : str) : result FewShot.reading :=
  if str_eqb path (lit "examples.jsonl")
  then Ok {| FewShot.yielded :=
               [lit "chat" ++ [FewShot.nl]; [FewShot.nl]; lit "io" ++ [FewShot.nl]];
             FewShot.read_error := None |}
  else Raise (Exception "FileNotFoundError" None).

Definition two_examples_json (line : str) : result json :=
  if str_eqb line (lit "chat") then
    Ok (JDict [(lit "user", JStr (lit "Q")); (lit "assistant", JStr (lit "A"));
               (lit "input", JStr (lit "ignored")); (lit "output", JStr (lit "ignored"))])
  else if str_eqb line (lit "io") then
    Ok (JDict [(lit "input", JStr (lit "I")); (lit "output", JStr (lit "O"))])
  else if str_eqb line (lit "half") then
    Ok (JDict [(lit "user", JStr (lit "Q")); (lit "output", JStr (lit "O"))])
  else Raise (Exception "JSONDecodeError" None).

Definition blank_file (path : str) : result FewShot.reading :=
  Ok {| FewShot.yielded := [[FewShot.nl]; lit "   " ++ [FewShot.nl]];
        FewShot.read_error := None |}.

Definition args_with_file (path : str) : FewShot.args :=
  {| FewShot.instruction := lit "Shorten.";
     FewShot.input := lit "Lunch is at noon.";
     FewShot.examples_file := Some path;
     FewShot.model := lit "gpt-4o-mini";
     FewShot.temperature := 0.5%float;
     FewShot.show_prompt := false |}.

End Scenarios.

(* ===================================================================== *)
(** * Properties of the token estimator                                   *)
(* ===================================================================== *)

Unset Implicit Arguments.

Module TokensFacts.

Import Tokens.
Local Open Scope Z_scope.

(** ** Model-name resolution *)

Section Resolution.

Variable lower : str -> str.

Lemma get_encoding_name_branches model :
  get_encoding_name lower model =
  if is_known_family lower model then lit "cl100k_base" else default_encoding.
Proof. reflexivity. Qed.

Lemma encoding_name_is_cl100k model :
  get_encoding_name lower model = lit "cl100k_base".
Proof.
  rewrite get_encoding_name_branches.
  destruct (is_known_family lower model); reflexivity.
Qed.

Lemma encoding_name_depends_on_lowered_name m m' :
  lower m = lower m' -> get_encoding_name lower m = get_encoding_name lower m'.
Proof.
  intros Hcase. unfold get_encoding_name. now rewrite Hcase.
Qed.

Lemma known_family_depends_on_lowered_name m m' :
  lower m = lower m' -> is_known_family lower m = is_known_family lower m'.
Proof.
  intros Hcase. unfold is_known_family. now rewrite Hcase.
Qed.

End Resolution.

(** On ASCII names the two branches of [get_encoding_name] are both
    taken: a chat-model name is recognised whatever its letter case, a
    name of no known family is not. *)
Example gpt4_is_known :
  is_known_family ascii_lower (lit "GPT-4") = true /\
  is_known_family ascii_lower (lit "gpt-4") = true /\
  is_known_family ascii_lower (lit "gpt-4o-mini") = true.
Proof. repeat split; reflexivity. Qed.

Example future_model_is_unknown :
  is_known_family ascii_lower (lit "some-future-model") = false.
Proof. reflexivity. Qed.

Lemma ascii_lower_upper_cp c : ascii_lower_cp (ascii_upper_cp c) = ascii_lower_cp c.
Proof.
  unfold ascii_lower_cp, ascii_upper_cp.
  destruct (N.leb_spec 97 c); destruct (N.leb_spec c 122); simpl;
    repeat match goal with
           | |- context [(?a <=? ?b)%N] => destruct (N.leb_spec a b); simpl
           end; lia.
Qed.

Lemma upper_is_a_case_variant m :
  same_ignoring_case ascii_lower (ascii_upper m) m.
Proof.
  unfold same_ignoring_case, ascii_lower, ascii_upper.
  rewrite map_map. apply map_ext. exact ascii_lower_upper_cp.
Qed.

(** C7. Resolution of a model name never fails and always yields an
    encoding name: [get_encoding_name] is a total function to strings,
    a name that matches no known family resolves to the default
    encoding, and so does ["some-future-model"]. *)
Theorem get_encoding_name_total_with_default (lower : str -> str) (m : str) :
  (exists enc, get_encoding_name lower m = enc) /\
  (is_known_family lower m = false ->
   get_encoding_name lower m = default_encoding) /\
  get_encoding_name lower (lit "some-future-model") = default_encoding.
Proof.
  split; [eexists; reflexivity | split].
  - intros Hunknown. rewrite get_encoding_name_branches, Hunknown. reflexivity.
  - apply encoding_name_is_cl100k.
Qed.

Lemma get_encoding_name_total_with_default_witness :
  is_known_family ascii_lower (lit "some-future-model") = false /\
  get_encoding_name ascii_lower (lit "some-future-model") = default_encoding.
Proof.
  split; [reflexivity |].
  destruct (get_encoding_name_total_with_default ascii_lower (lit "some-future-model"))
    as (_ & Hdefault & _).
  apply Hdefault. reflexivity.
Defined.

(** C8. Resolution is case-insensitive: two names that differ by letter
    case only (the same after [lower]) are looked up alike, they match
    the known families or not together, and resolve to the same
    encoding; in particular ["GPT-4"] and ["gpt-4"] do. *)
Theorem get_encoding_name_case_insensitive (lower : str -> str) (m m' : str) :
  same_ignoring_case lower m m' ->
  is_known_family lower m = is_known_family lower m' /\
  get_encoding_name lower m = get_encoding_name lower m'.
Proof.
  intros Hcase. split.
  - now apply known_family_depends_on_lowered_name.
  - now apply encoding_name_depends_on_lowered_name.
Qed.

Lemma get_encoding_name_case_insensitive_witness :
  same_ignoring_case ascii_lower (lit "GPT-4") (lit "gpt-4") /\
  get_encoding_name ascii_lower (lit "GPT-4") =
  get_encoding_name ascii_lower (lit "gpt-4").
Proof.
  split; [reflexivity |].
  apply (proj2 (get_encoding_name_case_insensitive
                  ascii_lower (lit "GPT-4") (lit "gpt-4") eq_refl)).
Defined.

(** C10. [get_encoding_name] is constant: every model name, of a known
    family or not, resolves to ["cl100k_base"]; the family branch and
    the default branch return the same encoding. *)
Theorem get_encoding_name_constant (lower : str -> str) (m : str) :
  get_encoding_name lower m = lit "cl100k_base" /\
  lit "cl100k_base" = default_encoding.
Proof. split; [apply encoding_name_is_cl100k | reflexivity]. Qed.

(** ** The estimator *)

Section Estimator.

Variable lower : str -> str.

Ltac run_count_tokens :=
  unfold count_tokens, exact_count, rbind, try_except.

Lemma exact_count_raises rt t m e :
  exact_path_raises lower rt t m e -> exact_count lower rt t m = Raise e.
Proof.
  intros [Himport | tk Himport Hget | tk enc Himport Hget Hencode];
    unfold exact_count, rbind; rewrite Himport; trivial;
    rewrite Hget; trivial; now rewrite Hencode.
Qed.

Lemma exact_count_raises_inv rt t m e :
  exact_count lower rt t m = Raise e -> exact_path_raises lower rt t m e.
Proof.
  unfold exact_count, rbind.
  destruct (import_tiktoken rt) as [tk | e0] eqn:Himport.
  - destruct (get_encoding tk (get_encoding_name lower m)) as [enc | e1] eqn:Hget.
    + destruct (encode enc t) as [toks | e2] eqn:Hencode; [discriminate |].
      intros [= <-]. eapply encode_raises; eassumption.
    + intros [= <-]. eapply get_encoding_raises; eassumption.
  - intros [= <-]. now apply import_raises.
Qed.


Lemma exact_count_returns_inv rt t m k :
  exact_count lower rt t m = Ok k ->
  exists toks, exact_path_returns lower rt t m toks /\ k = len toks.
Proof.
  unfold exact_count, rbind.
  destruct (import_tiktoken rt) as [tk | e0] eqn:Himport; [| discriminate].
  destruct (get_encoding tk (get_encoding_name lower m)) as [enc | e1] eqn:Hget;
    [| discriminate].
  destruct (encode enc t) as [toks | e2] eqn:Hencode; [| discriminate].
  intros [= <-]. exists toks. split; [| reflexivity].
  exists tk, enc. auto.
Qed.

(** The model name reaches the tokenizer through [get_encoding_name]
    only, which ignores it. *)
Lemma count_tokens_ignores_model rt t m m' :
  count_tokens lower rt t m = count_tokens lower rt t m'.
Proof.
  run_count_tokens.
  now rewrite (encoding_name_is_cl100k lower m),
              (encoding_name_is_cl100k lower m').
Qed.

Lemma count_tokens_falls_back rt t m e :
  exact_path_raises lower rt t m e -> is_Exception e = true ->
  count_tokens lower rt t m = Ok (Z.max 1 (len t / 4)).
Proof.
  intros Hfail Hexc. unfold count_tokens, try_except.
  now rewrite (exact_count_raises _ _ _ _ Hfail), Hexc.
Qed.


(** What is not an error in Python's sense, an interrupt or an exit
    request arriving during the call, is not caught by
    [except Exception] and leaves [count_tokens] as it was raised. *)
Lemma count_tokens_lets_non_Exception_through rt t m e :
  exact_path_raises lower rt t m e -> is_Exception e = false ->
  count_tokens lower rt t m = Raise e.
Proof.
  intros Hfail Hexc. unfold count_tokens, try_except.
  now rewrite (exact_count_raises _ _ _ _ Hfail), Hexc.
Qed.


End Estimator.

(** C1, as stated, fails: a failure of the exact tokenizer that is not
    raised as an instance of [Exception] is not caught, and
    [count_tokens] raises instead of returning the heuristic. *)
Lemma count_tokens_heuristic_counterexample :
  exact_path_raises ascii_lower panicking_encode (lit "Hello world") (lit "gpt-4")
    (BaseException "PanicException") /\
  count_tokens ascii_lower panicking_encode (lit "Hello world") (lit "gpt-4")
  = Raise (BaseException "PanicException") /\
  count_tokens ascii_lower panicking_encode (lit "Hello world") (lit "gpt-4")
  <> Ok (Z.max 1 (len (lit "Hello world") / 4)).
Proof.
  split; [| split].
  - eapply encode_raises; reflexivity.
  - reflexivity.
  - discriminate.
Qed.

(** C1, amended. When [import tiktoken], the loading of the encoding or
    the encoding of the text fails with an instance of [Exception],
    which is what [except Exception] catches, [count_tokens] returns
    [max(1, len(t) // 4)] whatever the model name; for
    ["Hello world"] (11 characters) the result is 2. *)
Theorem count_tokens_heuristic (lower : str -> str) :
  (forall rt t m e,
      exact_path_raises lower rt t m e -> is_Exception e = true ->
      forall m', count_tokens lower rt t m' = Ok (Z.max 1 (len t / 4))) /\
  (forall m, count_tokens lower no_tiktoken (lit "Hello world") m = Ok 2).
Proof.
  split.
  - intros rt t m e Hfail Hexc m'.
    rewrite (count_tokens_ignores_model lower rt t m' m).
    now apply (count_tokens_falls_back lower) with e.
  - intros m. reflexivity.
Qed.

Lemma count_tokens_heuristic_witness :
  exact_path_raises ascii_lower failing_encode (lit "Hello world") (lit "gpt-4")
    (Exception "ValueError" (Some (lit "disallowed special token"))) /\
  count_tokens ascii_lower failing_encode (lit "Hello world") (lit "gpt-4o-mini")
  = Ok 2.
Proof.
  assert (Hfail : exact_path_raises ascii_lower failing_encode
                    (lit "Hello world") (lit "gpt-4")
                    (Exception "ValueError" (Some (lit "disallowed special token")))).
  { eapply encode_raises; reflexivity. }
  split; [exact Hfail |].
  exact (proj1 (count_tokens_heuristic ascii_lower) _ _ _ _ Hfail eq_refl
           (lit "gpt-4o-mini")).
Defined.

(** C3, as stated, fails: when the loading of the encoding ends with
    an exception that is not an instance of [Exception],
    [count_tokens] raises it to its caller. *)
Lemma count_tokens_never_raises_counterexample :
  exact_path_raises ascii_lower panicking_get_encoding (lit "Hello") (lit "gpt-4")
    (BaseException "PanicException") /\
  count_tokens ascii_lower panicking_get_encoding (lit "Hello") (lit "gpt-4")
  = Raise (BaseException "PanicException").
Proof.
  split; [| reflexivity].
  eapply get_encoding_raises; reflexivity.
Qed.

(** C3, amended. [count_tokens] catches every failure of the exact
    tokenizer, at the import, the loading or the encoding, that is an
    instance of [Exception]: it then returns the heuristic estimate and
    raises nothing.  An exception that is not an instance of
    [Exception] is not caught and leaves [count_tokens] as raised. *)
Theorem count_tokens_catches_Exception_only (lower : str -> str) rt t m e :
  exact_path_raises lower rt t m e ->
  (is_Exception e = true ->
   count_tokens lower rt t m = Ok (Z.max 1 (len t / 4)) /\
   forall e', count_tokens lower rt t m <> Raise e') /\
  (is_Exception e = false -> count_tokens lower rt t m = Raise e).
Proof.
  intros Hfail. split.
  - intros Hexc.
    rewrite (count_tokens_falls_back lower rt t m e Hfail Hexc).
    split; [reflexivity | discriminate].
  - intros Hexc. now apply count_tokens_lets_non_Exception_through.
Qed.

Lemma count_tokens_catches_Exception_only_witness :
  exact_path_raises ascii_lower unknown_encoding (lit "Hello world") (lit "gpt-4")
    (Exception "ValueError" (Some (lit "Unknown encoding"))) /\
  count_tokens ascii_lower unknown_encoding (lit "Hello world") (lit "gpt-4") = Ok 2 /\
  exact_path_raises ascii_lower panicking_encode (lit "Hello world") (lit "gpt-4")
    (BaseException "PanicException") /\
  count_tokens ascii_lower panicking_encode (lit "Hello world") (lit "gpt-4")
  = Raise (BaseException "PanicException").
Proof.
  assert (Hvalue : exact_path_raises ascii_lower unknown_encoding
                     (lit "Hello world") (lit "gpt-4")
                     (Exception "ValueError" (Some (lit "Unknown encoding")))).
  { eapply get_encoding_raises; reflexivity. }
  assert (Hpanic : exact_path_raises ascii_lower panicking_encode
                     (lit "Hello world") (lit "gpt-4")
                     (BaseException "PanicException")).
  { eapply encode_raises; reflexivity. }
  split; [exact Hvalue | split; [| split; [exact Hpanic |]]].
  - exact (proj1 (proj1 (count_tokens_catches_Exception_only ascii_lower _ _ _ _ Hvalue)
                    eq_refl)).
  - exact (proj2 (count_tokens_catches_Exception_only ascii_lower _ _ _ _ Hpanic)
             eq_refl).
Defined.





(** ** The script *)

Section Main.

Variable lower : str -> str.
Variable rt : runtime.
Variable fs : filesystem.

Lemma load_text_without_input a :
  no_input_supplied a -> load_text fs (file a) (text a) = Ok [].
Proof.
  intros [Hfile Htext]. unfold load_text.
  destruct (file a) as [f |]; simpl in Hfile; [rewrite Hfile |];
    destruct (text a) as [[| c t] |]; simpl in Htext;
    reflexivity || discriminate.
Qed.

Lemma main_on_empty_body a :
  load_text fs (file a) (text a) = Ok [] ->
  run (main lower rt fs a) =
  {| events := [Stderr [VStr (lit "Provide --text or --file")]];
     ending := Exited 1 |}.
Proof.
  intros Hbody. unfold run, main, bind, lift. rewrite Hbody. reflexivity.
Qed.

Lemma main_on_missing_file a f :
  file a = Some f -> f <> [] -> fs f = Missing ->
  run (main lower rt fs a) =
  {| events := [Stderr [VStr (lit "File not found: " ++ f)]];
     ending := Exited 1 |}.
Proof.
  intros Hfile Hf Hmissing. unfold run, main, bind, lift, load_text.
  rewrite Hfile. destruct f as [| c f']; [congruence |].
  simpl truthy. cbv iota. rewrite Hmissing. reflexivity.
Qed.

(** With a body to count, the estimator is called once and the three
    report lines are printed. *)
Lemma main_on_some_body a body k :
  load_text fs (file a) (text a) = Ok body -> body <> [] ->
  count_tokens lower rt body (model a) = Ok k ->
  show_sample a <= 0 ->
  run (main lower rt fs a) =
  {| events := [Estimate body (model a);
                Stdout [VStr (lit "Model:"); VStr (model a)];
                Stdout [VStr (lit "Characters:"); VInt (len body)];
                Stdout [VStr (lit "Approx tokens:"); VInt k]];
     ending := Exited 0 |}.
Proof.
  intros Hbody Hne Hcount Hsample. unfold run, main, bind, lift.
  rewrite Hbody. destruct body as [| c body']; [congruence |].
  simpl truthy. cbv iota. unfold emit. simpl negb. cbv iota.
  rewrite Hcount.
  destruct (Z.ltb_spec 0 (show_sample a)); [lia |].
  reflexivity.
Qed.

End Main.

(** C5. With no input text, either because neither a file path nor an
    inline text was given or because the text that was loaded is empty,
    the script ends with exit status 1 and the message
    ["Provide --text or --file"] on standard error; [count_tokens] is
    not called and nothing is printed on standard output. *)
Theorem main_rejects_empty_input (lower : str -> str) rt fs a :
  no_input_supplied a \/ load_text fs (file a) (text a) = Ok [] ->
  let o := run (main lower rt fs a) in
  ending o = Exited 1 /\
  nonzero_exit o = true /\
  events o = [Stderr [VStr (lit "Provide --text or --file")]] /\
  existsb is_estimate (events o) = false /\
  existsb is_stdout (events o) = false.
Proof.
  intros Hempty.
  assert (Hbody : load_text fs (file a) (text a) = Ok []).
  { destruct Hempty as [Hnone | Hbody]; [| exact Hbody].
    now apply load_text_without_input. }
  cbv zeta. rewrite (main_on_empty_body lower rt fs a Hbody).
  repeat split.
Qed.

Lemma main_rejects_empty_input_witness :
  let a := {| text := Some []; file := None;
              model := lit "gpt-4o-mini"; show_sample := 0 |} in
  (no_input_supplied a \/ load_text empty_fs (file a) (text a) = Ok []) /\
  ending (run (main ascii_lower per_char_tiktoken empty_fs a)) = Exited 1.
Proof.
  cbv zeta.
  assert (Hnone : no_input_supplied
                    {| text := Some []; file := None;
                       model := lit "gpt-4o-mini"; show_sample := 0 |})
    by (split; reflexivity).
  split; [left; exact Hnone |].
  exact (proj1 (main_rejects_empty_input ascii_lower per_char_tiktoken empty_fs
                  _ (or_introl Hnone))).
Defined.

(** C6. With a file path that names no existing file the script ends
    with exit status 1 and the message ["File not found: <path>"] on
    standard error, and [count_tokens] is not called.  (An empty
    [--file] value is not a path to a missing file: the empty path is
    the current directory, and [if file:] skips it.) *)
Theorem main_rejects_missing_file (lower : str -> str) rt fs a f :
  file a = Some f -> f <> [] -> fs f = Missing ->
  let o := run (main lower rt fs a) in
  ending o = Exited 1 /\
  nonzero_exit o = true /\
  events o = [Stderr [VStr (lit "File not found: " ++ f)]] /\
  existsb is_estimate (events o) = false.
Proof.
  intros Hfile Hf Hmissing. cbv zeta.
  rewrite (main_on_missing_file lower rt fs a f Hfile Hf Hmissing).
  repeat split.
Qed.

Lemma main_rejects_missing_file_witness :
  let a := {| text := Some (lit "ignored"); file := Some (lit "nowhere.txt");
              model := lit "gpt-4o-mini"; show_sample := 0 |} in
  file a = Some (lit "nowhere.txt") /\ lit "nowhere.txt" <> [] /\
  empty_fs (lit "nowhere.txt") = Missing /\
  ending (run (main ascii_lower per_char_tiktoken empty_fs a)) = Exited 1.
Proof.
  cbv zeta.
  assert (Hne : lit "nowhere.txt" <> []) by discriminate.
  split; [reflexivity | split; [exact Hne | split; [reflexivity |]]].
  exact (proj1 (main_rejects_missing_file ascii_lower per_char_tiktoken empty_fs
                  {| text := Some (lit "ignored"); file := Some (lit "nowhere.txt");
                     model := lit "gpt-4o-mini"; show_sample := 0 |}
                  (lit "nowhere.txt") eq_refl Hne eq_refl)).
Defined.

End TokensFacts.

(* ===================================================================== *)
(** * Reasoning about script runs                                         *)
(* ===================================================================== *)

Module ScriptFacts.

(** ** Steps only add events *)

Lemma extends_ret {A} (a : A) : extends (ret a).
Proof. intros t. exists []. simpl. now rewrite app_nil_r. Qed.

Lemma extends_raise {A} e : extends (@raise A e).
Proof. intros t. exists []. simpl. now rewrite app_nil_r. Qed.

Lemma extends_lift {A} (r : result A) : extends (lift r).
Proof. intros t. exists []. simpl. now rewrite app_nil_r. Qed.

Lemma extends_emit ev : extends (emit ev).
Proof. intros t. now exists [ev]. Qed.

Lemma extends_bind {A B} (m : M A) (k : A -> M B) :
  extends m -> (forall a, extends (k a)) -> extends (bind m k).
Proof.
  intros Hm Hk t. unfold bind. destruct (Hm t) as [d Hd].
  destruct (m t) as [t' [a | e]]; simpl in Hd; subst t'.
  - destruct (Hk a (t ++ d)) as [d' Hd']. exists (d ++ d').
    now rewrite Hd', app_assoc.
  - now exists d.
Qed.

Lemma extends_try_catch {A} (body : M A) (handler : exn -> M A) :
  extends body -> (forall e, extends (handler e)) -> extends (try_catch body handler).
Proof.
  intros Hb Hh t. unfold try_catch. destruct (Hb t) as [d Hd].
  destruct (body t) as [t' [a | e]]; simpl in Hd; subst t'.
  - now exists d.
  - destruct (is_Exception e); [| now exists d].
    destruct (Hh e (t ++ d)) as [d' Hd']. exists (d ++ d').
    now rewrite Hd', app_assoc.
Qed.

Lemma extends_for_each {A} (xs : list A) (body : A -> M unit) :
  (forall x, extends (body x)) -> extends (for_each xs body).
Proof.
  intros Hbody. induction xs as [| x xs IH]; simpl.
  - apply extends_ret.
  - apply extends_bind; [apply Hbody | intros _; exact IH].
Qed.

Lemma extends_chat_completions_create c r :
  extends (chat_completions_create c r).
Proof.
  intros t. exists [Request r]. reflexivity.
Qed.

(** ** Invariants of the events *)

Section Preservation.

Variable P : event -> Prop.

Lemma preserves_ret {A} (a : A) : preserves P (ret a).
Proof. intros t Ht. exact Ht. Qed.

Lemma preserves_raise {A} e : preserves P (@raise A e).
Proof. intros t Ht. exact Ht. Qed.

Lemma preserves_lift {A} (r : result A) : preserves P (lift r).
Proof. intros t Ht. exact Ht. Qed.

Lemma preserves_emit ev : P ev -> preserves P (emit ev).
Proof.
  intros Hev t Ht. simpl. apply Forall_app. split; [exact Ht | now constructor].
Qed.

Lemma preserves_bind {A B} (m : M A) (k : A -> M B) :
  preserves P m -> (forall a, preserves P (k a)) -> preserves P (bind m k).
Proof.
  intros Hm Hk t Ht. unfold bind. specialize (Hm t Ht).
  destruct (m t) as [t' [a | e]]; simpl in Hm.
  - now apply Hk.
  - exact Hm.
Qed.

Lemma preserves_try_catch {A} (body : M A) (handler : exn -> M A) :
  preserves P body -> (forall e, preserves P (handler e)) ->
  preserves P (try_catch body handler).
Proof.
  intros Hb Hh t Ht. unfold try_catch. specialize (Hb t Ht).
  destruct (body t) as [t' [a | e]]; simpl in Hb; [exact Hb |].
  destruct (is_Exception e); [now apply Hh | exact Hb].
Qed.

Lemma preserves_for_each {A} (xs : list A) (body : A -> M unit) :
  (forall x, In x xs -> preserves P (body x)) -> preserves P (for_each xs body).
Proof.
  induction xs as [| x xs IH]; intros Hbody; simpl.
  - apply preserves_ret.
  - apply preserves_bind.
    + apply Hbody. now left.
    + intros _. apply IH. intros y Hy. apply Hbody. now right.
Qed.

Lemma preserves_chat_completions_create c r :
  P (Request r) -> preserves P (chat_completions_create c r).
Proof.
  intros Hr t Ht. simpl. apply Forall_app. split; [exact Ht | now constructor].
Qed.

(** The events of a whole run: those of the script, and the message of
    a [SystemExit] on standard error. *)
Lemma run_invariant {A} (m : M A) :
  preserves P m -> (forall args, P (Stderr args)) -> Forall P (events (run m)).
Proof.
  intros Hm Herr. unfold run. specialize (Hm [] (Forall_nil P)).
  destruct (m []) as [t [a | [[msg | code] | cls msg | cls]]]; simpl in *;
    try exact Hm.
  apply Forall_app. split; [exact Hm | constructor; [apply Herr | constructor]].
Qed.

End Preservation.

Lemma requests_app t t' : requests (t ++ t') = requests t ++ requests t'.
Proof. unfold requests. apply flat_map_app. Qed.

(** ** Where a run has got to *)

Lemma bind_ok {A B} (m : M A) (k : A -> M B) t t' a :
  m t = (t', Ok a) -> bind m k t = k a t'.
Proof. intros Hm. unfold bind. now rewrite Hm. Qed.

Lemma bind_prefix {A B} (m : M A) (k : A -> M B) t :
  (forall a, extends (k a)) -> exists added, fst (bind m k t) = fst (m t) ++ added.
Proof.
  intros Hk. unfold bind. destruct (m t) as [t' [a | e]]; simpl.
  - apply Hk.
  - exists []. now rewrite app_nil_r.
Qed.

Lemma try_catch_prefix {A} (body : M A) (handler : exn -> M A) t :
  (forall e, extends (handler e)) ->
  exists added, fst (try_catch body handler t) = fst (body t) ++ added.
Proof.
  intros Hh. unfold try_catch. destruct (body t) as [t' [a | e]]; simpl.
  - exists []. now rewrite app_nil_r.
  - destruct (is_Exception e); [apply Hh |]. exists []. now rewrite app_nil_r.
Qed.

Lemma run_prefix {A} (m : M A) :
  exists added, events (run m) = fst (m []) ++ added.
Proof.
  unfold run.
  destruct (m []) as [t [a | [[msg | code] | cls msg | cls]]]; simpl;
    try (exists []; now rewrite app_nil_r).
  now exists [Stderr [VStr msg]].
Qed.

Lemma preserves_bind_lift P {A B} (r : result A) (k : A -> M B) :
  (forall a, r = Ok a -> preserves P (k a)) -> preserves P (bind (lift r) k).
Proof.
  intros Hk t Ht. unfold bind, lift. destruct r as [a | e]; [| exact Ht].
  now apply Hk.
Qed.

End ScriptFacts.

(* ===================================================================== *)
(** * Properties of the top-p script                                      *)
(* ===================================================================== *)

Module TopPFacts.

Import TopP ScriptFacts.
Local Open Scope Z_scope.

Ltac step_extends :=
  unfold print, eprint, sys_exit;
  repeat first
    [ apply extends_ret | apply extends_raise | apply extends_lift
    | apply extends_emit | apply extends_chat_completions_create
    | apply extends_try_catch | apply extends_for_each | apply extends_bind
    | match goal with
      | |- forall _, _ => intro
      | |- extends (if ?b then _ else _) => destruct b
      end ].

Ltac step_preserves :=
  unfold print, eprint, sys_exit;
  repeat first
    [ apply preserves_ret | apply preserves_raise | apply preserves_lift
    | apply preserves_emit; exact I
    | apply preserves_chat_completions_create
    | apply preserves_try_catch | apply preserves_bind
    | match goal with
      | |- forall _, _ => intro
      | |- preserves _ (if ?b then _ else _) => destruct b
      end ].

Section Sweep.

Variable py_float : str -> option float.
Variable float_str : float -> str.

(** ** [parse_sweep] validates every value it returns *)

Lemma parse_chunks_in_range chunks :
  forall vals vals',
    Forall (fun v => in_unit_interval v = true) vals ->
    parse_chunks py_float float_str chunks vals = Ok vals' ->
    Forall (fun v => in_unit_interval v = true) vals'.
Proof.
  induction chunks as [| chunk rest IH]; intros vals vals' Hvals; simpl.
  - now intros [= <-].
  - destruct (truthy (strip chunk)); simpl; [| now apply IH].
    destruct (py_float (strip chunk)) as [v |]; [| discriminate].
    destruct (in_unit_interval v) eqn:Hv; simpl; [| discriminate].
    apply IH. apply Forall_app. split; [exact Hvals | now constructor].
Qed.

Lemma parse_sweep_in_range s vals :
  parse_sweep py_float float_str s = Ok vals ->
  vals <> [] /\ Forall (fun v => in_unit_interval v = true) vals.
Proof.
  unfold parse_sweep.
  destruct (parse_chunks py_float float_str (split 44%N s) []) as [[| v0 vs] | e] eqn:Hchunks;
    try discriminate.
  intros [= <-]. split; [discriminate |].
  now apply (parse_chunks_in_range (split 44%N s) [] (v0 :: vs)).
Qed.

Lemma parse_chunks_rejects chunks chunk v :
  In chunk chunks ->
  truthy (strip chunk) = true ->
  py_float (strip chunk) = Some v ->
  in_unit_interval v = false ->
  forall vals, exists msg,
    parse_chunks py_float float_str chunks vals = Raise (SystemExit (ExitMessage msg)).
Proof.
  intros Hin Hs Hfloat Hv.
  induction chunks as [| c rest IH]; [contradiction |].
  intros vals. simpl. destruct Hin as [-> | Hin].
  - rewrite Hs, Hfloat, Hv. simpl. eauto.
  - destruct (truthy (strip c)); simpl; [| now apply IH].
    destruct (py_float (strip c)) as [w |]; [| eauto].
    destruct (in_unit_interval w); simpl; [now apply IH | eauto].
Qed.

Lemma parse_sweep_rejects s chunk v :
  In chunk (split 44%N s) ->
  truthy (strip chunk) = true ->
  py_float (strip chunk) = Some v ->
  in_unit_interval v = false ->
  exists msg, parse_sweep py_float float_str s = Raise (SystemExit (ExitMessage msg)).
Proof.
  intros Hin Hs Hfloat Hv. unfold parse_sweep.
  destruct (parse_chunks_rejects _ _ _ Hin Hs Hfloat Hv []) as [msg ->].
  eauto.
Qed.

(** ** The sweep path of [main] *)

Lemma sample_within_range c a messages p_val i :
  in_unit_interval p_val = true ->
  preserves within_range (sample float_str c a messages p_val i).
Proof.
  intros Hp. unfold sample. step_preserves. simpl. eauto.
Qed.

(** With [--sweep], every request that goes out carries a value of
    [0.0, 1.0]: the others end the script in [parse_sweep]. *)
Lemma sweep_requests_within_range env a s :
  sweep a = Some s -> truthy s = true ->
  Forall within_range (events (run (main py_float float_str env a))).
Proof.
  intros Hsweep Hs. apply run_invariant; [| intros; exact I].
  unfold main. rewrite Hsweep, Hs.
  apply preserves_bind; [step_preserves | intros _].
  apply preserves_bind; [step_preserves | intros _].
  apply preserves_bind; [step_preserves | intros c].
  apply preserves_bind_lift. intros p_vals Hparse.
  apply parse_sweep_in_range in Hparse. destruct Hparse as [_ Hrange].
  apply preserves_for_each. intros p_val Hp.
  rewrite Forall_forall in Hrange. specialize (Hrange p_val Hp).
  apply preserves_bind; [step_preserves | intros _].
  apply preserves_for_each. intros i _.
  now apply sample_within_range.
Qed.

Lemma sweep_rejected_without_request env a s e :
  sweep a = Some s -> truthy s = true ->
  parse_sweep py_float float_str s = Raise e ->
  requests (events (run (main py_float float_str env a))) = [].
Proof.
  intros Hsweep Hs Hparse. unfold run, TopP.main, bind, try_catch, lift.
  rewrite Hsweep, Hs, Hparse.
  destruct (import_openai env) as [[] | e0]; simpl.
  - destruct (getenv_api_key env) as [[| k0 key] |]; simpl;
      try reflexivity.
    destruct (OpenAI env (k0 :: key)) as [c | e1]; simpl.
    + destruct e as [[msg | code] | cls msg | cls]; reflexivity.
    + destruct e1 as [[msg | code] | cls msg | cls]; reflexivity.
  - destruct e0 as [[msg | code] | cls msg | cls]; reflexivity.
Qed.

(** ** The single-value path of [main] *)

Lemma extends_sample c a messages p_val i :
  extends (sample float_str c a messages p_val i).
Proof. unfold sample. step_extends. Qed.

(** Each sample starts by sending its request. *)
Lemma sample_starts_with_request c a messages p_val i t :
  exists later,
    fst (sample float_str c a messages p_val i t) =
    t ++ Request {| req_model := model a;
                    req_messages := messages;
                    req_temperature := temperature a;
                    req_top_p := Some p_val |} :: later.
Proof.
  unfold sample.
  match goal with
  | |- context [bind (try_catch ?body ?h) ?k t] =>
      destruct (bind_prefix (try_catch body h) k t) as [d1 ->];
      [ step_extends |];
      destruct (try_catch_prefix body h t) as [d2 ->];
      [ step_extends |]
  end.
  simpl. exists (d2 ++ d1). now rewrite <- !app_assoc.
Qed.

(** What [main] does once the SDK is there: it computes the values to
    try and loops over them. *)
Lemma main_when_ready env c a t :
  ready env c ->
  main py_float float_str env a t =
  bind (lift (match sweep a with
              | Some s => if truthy s then parse_sweep py_float float_str s
                          else Ok [top_p a]
              | None => Ok [top_p a]
              end))
       (fun p_vals =>
          let messages :=
            [ Message system (VStr (lit "You are a helpful, concise assistant."));
              Message user (VStr (prompt a)) ] in
          for_each p_vals (fun p_val =>
            bind (print [VStr ([10%N] ++ lit "=== top_p: " ++ float_str p_val
                               ++ lit " (temperature=" ++ float_str (temperature a)
                               ++ lit ") ===" ++ [10%N])])
                 (fun _ => for_each (range (n a)) (sample float_str c a messages p_val))))
       t.
Proof.
  intros (Himport & key & Hkey & Htruthy & Hclient). unfold main.
  rewrite (bind_ok _ _ t t tt)
    by (unfold try_catch, lift; now rewrite Himport).
  rewrite Hkey. simpl opt_truthy. rewrite Htruthy. simpl negb. cbv iota.
  rewrite (bind_ok _ _ t t tt) by reflexivity.
  rewrite (bind_ok _ _ t t c)
    by (unfold lift; now rewrite Hclient).
  reflexivity.
Qed.

(** Without [--sweep] the value of [--top-p] goes into the first
    request as it is, whatever it is. *)
Lemma single_value_goes_out env c a :
  ready env c -> opt_truthy (sweep a) = false -> 0 < n a ->
  exists later,
    requests (events (run (main py_float float_str env a))) =
    {| req_model := model a;
       req_messages :=
         [ Message system (VStr (lit "You are a helpful, concise assistant."));
           Message user (VStr (prompt a)) ];
       req_temperature := temperature a;
       req_top_p := Some (top_p a) |} :: later.
Proof.
  intros Hready Hsweep Hn.
  destruct (run_prefix (main py_float float_str env a)) as [after_run ->].
  assert (Hvals : match sweep a with
                  | Some s => if truthy s then parse_sweep py_float float_str s
                              else Ok [top_p a]
                  | None => Ok [top_p a]
                  end = Ok [top_p a]).
  { destruct (sweep a) as [s |]; simpl in Hsweep; [now rewrite Hsweep | reflexivity]. }
  assert (Hrange : exists more, range (n a) = 0 :: more).
  { unfold range. destruct (Z.to_nat (n a)) eqn:Hnat; [lia |]. simpl. eauto. }
  destruct Hrange as [more Hrange].
  rewrite (main_when_ready env c a [] Hready), Hvals.
  rewrite (bind_ok _ _ [] [] [top_p a]) by reflexivity.
  cbv zeta. simpl for_each. rewrite Hrange. simpl for_each.
  match goal with
  | |- context [bind ?m ?k []] =>
      destruct (bind_prefix m k []) as [d1 ->]; [ step_extends |]
  end.
  rewrite (bind_ok _ _ [] ([Stdout [VStr ([10%N] ++ lit "=== top_p: "
              ++ float_str (top_p a) ++ lit " (temperature="
              ++ float_str (temperature a) ++ lit ") ===" ++ [10%N])]]) tt)
    by reflexivity.
  match goal with
  | |- context [bind ?m ?k ?t] =>
      destruct (bind_prefix m k t) as [d2 ->];
      [ intros _; apply extends_for_each; intros i; apply extends_sample |]
  end.
  match goal with
  | |- context [sample float_str c a ?ms ?p 0 ?t] =>
      destruct (sample_starts_with_request c a ms p 0 t) as [d3 ->]
  end.
  rewrite !requests_app. simpl. eauto.
Qed.

End Sweep.

(** The sibling path: the same value given through [--sweep] ends the
    script in [parse_sweep], with exit status 1 and no request. *)
Example sweep_value_above_one_is_rejected :
  let o := run (main sample_float sample_float_str ready_sdk sweep_above_one) in
  requests (events o) = [] /\
  ending o = Exited 1 /\
  events o =
  [Stderr [VStr (lit "top_p must be between 0.0 and 1.0, got: <float>")]].
Proof. repeat split. Qed.

(** C2. The value of [--top-p] is not checked against [0.0, 1.0]: on the
    command line [--top-p 1.5] the script sends a request with
    [top_p = 1.5] and ends with status 0, where a value outside the
    interval should have stopped it before any request. *)
Theorem top_p_option_is_not_validated :
  let o := run (main sample_float sample_float_str ready_sdk top_p_above_one) in
  in_unit_interval (top_p top_p_above_one) = false /\
  requests (events o) =
  [ {| req_model := lit "gpt-4o-mini";
       req_messages :=
         [ Message system (VStr (lit "You are a helpful, concise assistant."));
           Message user (VStr (lit "Hi")) ];
       req_temperature := 0.5%float;
       req_top_p := Some 1.5%float |} ] /\
  ending o = Exited 0.
Proof. repeat split. Qed.

End TopPFacts.

(* ===================================================================== *)
(** * Properties of the few-shot script                                   *)
(* ===================================================================== *)

Module FewShotFacts.

Import FewShot ScriptFacts.
Local Open Scope Z_scope.

(** ** The message sequence *)

Lemma fold_append_example examples :
  forall messages,
    fold_left append_example examples messages =
    messages ++ flat_map (fun ex => [Message user (ex_user ex);
                                     Message assistant (ex_assistant ex)]) examples.
Proof.
  induction examples as [| ex examples IH]; intros messages; simpl.
  - now rewrite app_nil_r.
  - rewrite IH. unfold append_example. now rewrite <- !app_assoc.
Qed.

Lemma build_messages_conversation examples a :
  build_messages examples a = conversation system_message examples (live_query a).
Proof.
  unfold build_messages, conversation. rewrite fold_append_example. reflexivity.
Qed.

Lemma conversation_has_roles s examples q :
  msg_role s = system -> msg_role q = user ->
  map msg_role (conversation s examples q) = conversation_roles (List.length examples).
Proof.
  intros Hs Hq. unfold conversation, conversation_roles. simpl. rewrite Hs. f_equal.
  rewrite map_app. simpl. rewrite Hq. f_equal.
  induction examples as [| ex examples IH]; simpl; [reflexivity |].
  now rewrite IH.
Qed.

Lemma conversation_one_system s examples q :
  msg_role s = system -> msg_role q = user ->
  List.length (filter is_system_message (conversation s examples q)) = 1%nat.
Proof.
  intros Hs Hq. unfold conversation. simpl. unfold is_system_message at 1.
  rewrite Hs. simpl. f_equal. rewrite filter_app. simpl.
  unfold is_system_message at 2. rewrite Hq. rewrite app_nil_r.
  induction examples as [| ex examples IH]; simpl; [reflexivity | exact IH].
Qed.

(** ** The run of [main] *)

Lemma for_each_emit {A} (xs : list A) (f : A -> event) :
  forall t, for_each xs (fun x => emit (f x)) t = (t ++ map f xs, Ok tt).
Proof.
  induction xs as [| x xs IH]; intros t; simpl.
  - unfold ret. now rewrite app_nil_r.
  - unfold bind. simpl. rewrite IH. now rewrite <- app_assoc.
Qed.

Lemma requests_of_prints {A} (f : A -> list value) xs :
  requests (map (fun x => Stdout (f x)) xs) = [].
Proof. induction xs as [| x xs IH]; simpl; [reflexivity | exact IH]. Qed.

Section Main.

Variable json_loads : str -> result json.
Variable read_lines : str -> result FewShot.reading.

(** [main] sends no request and does not return, or it sends exactly
    one request, which carries the sequence built from the examples,
    and what it returns is that sequence. *)
Lemma main_requests env a :
  exists t r,
    main json_loads read_lines env a [] = (t, r) /\
    ((requests t = [] /\ forall msgs, r <> Ok msgs) \/
     (exists examples,
         requests t = [request_for a (build_messages examples a)] /\
         forall msgs, r = Ok msgs -> msgs = build_messages examples a)).
Proof.
  unfold main, bind, try_catch, lift, ret, sys_exit, raise, eprint, emit.
  destruct (import_openai env) as [[] | e0]; simpl;
    [| destruct (is_Exception e0); simpl; do 2 eexists;
       (split; [reflexivity | left; split; [reflexivity | discriminate]]) ].
  destruct (getenv_api_key env) as [[| k0 key] |]; simpl;
    try (do 2 eexists;
         split; [reflexivity | left; split; [reflexivity | discriminate]]).
  destruct (OpenAI env (k0 :: key)) as [c | e1]; simpl;
    [| do 2 eexists;
       split; [reflexivity | left; split; [reflexivity | discriminate]] ].
  match goal with
  | |- context [match ?loaded with Ok _ => _ | Raise _ => _ end] =>
      destruct loaded as [examples | e2]; simpl
  end;
    [| destruct (is_Exception e2); simpl; do 2 eexists;
       (split; [reflexivity | left; split; [reflexivity | discriminate]]) ].
  assert (Hreturned : forall msgs,
             Ok (build_messages examples a) = Ok msgs ->
             msgs = build_messages examples a) by congruence.
  unfold request_for.
  destruct (show_prompt a);
    [ unfold print at 1; rewrite for_each_emit |];
    unfold print, emit; cbv beta iota;
    (destruct (create c _ _) as [resp | e3];
     [ destruct (first_choice_content resp) as [content | e4]
     | destruct (is_Exception e3) ]);
    do 2 eexists; (split; [reflexivity |]); right; exists examples;
    rewrite ?requests_app, ?requests_of_prints;
    (split; [reflexivity | exact Hreturned || discriminate]).
Qed.

End Main.

(** C9. The message sequence of the few-shot script is the system
    message, then for each example its user message followed by its
    assistant message, in order, then the live query as a user message:
    exactly one system message, at the head.  The script sends at most
    one request; the request carries a sequence of that form, and the
    value of [messages] when [main] returns is the one that was sent. *)
Theorem few_shot_message_sequence json_loads read_lines env a :
  (forall examples,
      build_messages examples a =
      conversation system_message examples (live_query a) /\
      map msg_role (build_messages examples a) =
      conversation_roles (List.length examples) /\
      List.length (filter is_system_message (build_messages examples a)) = 1%nat) /\
  (forall t r,
      main json_loads read_lines env a [] = (t, r) ->
      (List.length (requests t) <= 1)%nat /\
      (forall req, In req (requests t) ->
         exists examples,
           req = request_for a (conversation system_message examples (live_query a))) /\
      (forall msgs, r = Ok msgs -> requests t = [request_for a msgs])).
Proof.
  split.
  - intros examples. rewrite build_messages_conversation.
    split; [reflexivity | split].
    + now apply conversation_has_roles.
    + now apply conversation_one_system.
  - intros t r Hrun.
    destruct (main_requests json_loads read_lines env a)
      as (t0 & r0 & Hrun0 & Hcases).
    rewrite Hrun in Hrun0. injection Hrun0 as <- <-.
    destruct Hcases as [[Hnone Hraised] | (examples & Hone & Hreturned)].
    + rewrite Hnone. split; [simpl; lia | split].
      * intros req [].
      * intros msgs Hr. now destruct (Hraised msgs).
    + rewrite Hone. split; [simpl; lia | split].
      * intros req [<- | []]. exists examples.
        now rewrite build_messages_conversation.
      * intros msgs Hr. now rewrite (Hreturned msgs Hr).
Qed.

Lemma few_shot_message_sequence_witness :
  let out := main no_json no_files ready_sdk sample_args [] in
  let sent := request_for sample_args (build_messages default_examples sample_args) in
  snd out = Ok (build_messages default_examples sample_args) /\
  In sent (requests (fst out)) /\
  requests (fst out) = [sent] /\
  exists examples,
    sent = request_for sample_args
             (conversation system_message examples (live_query sample_args)).
Proof.
  cbv zeta.
  assert (Hret : snd (main no_json no_files ready_sdk sample_args [])
                 = Ok (build_messages default_examples sample_args))
    by reflexivity.
  assert (Hin : In (request_for sample_args (build_messages default_examples sample_args))
                   (requests (fst (main no_json no_files ready_sdk sample_args []))))
    by (left; reflexivity).
  destruct (few_shot_message_sequence no_json no_files ready_sdk sample_args)
    as [_ Hrun].
  destruct (Hrun _ _ (surjective_pairing _)) as (_ & Hshape & Hsame).
  split; [exact Hret | split; [exact Hin | split]].
  - exact (Hsame _ Hret).
  - exact (Hshape _ Hin).
Defined.

End FewShotFacts.

(* ===================================================================== *)
(** * More on the token estimator                                         *)
(* ===================================================================== *)

Module TokensMore.

Import Tokens Scenarios TokensFacts.
Local Open Scope Z_scope.

(** X1. A readable [--file] wins over [--text]: [load_text] returns the
    content of the file whatever inline text was given with it. *)
Theorem load_text_prefers_file fs f content (inline : option str) :
  f <> [] -> fs f = Readable content ->
  load_text fs (Some f) inline = Ok content.
Proof.
  intros Hf Hread. unfold load_text.
  destruct f as [| c f']; [congruence |]. simpl truthy. cbv iota.
  now rewrite Hread.
Qed.

Lemma load_text_prefers_file_witness :
  lit "notes.txt" <> [] /\
  single_file_fs (lit "notes.txt") (lit "from the file") (lit "notes.txt")
  = Readable (lit "from the file") /\
  load_text (single_file_fs (lit "notes.txt") (lit "from the file"))
            (Some (lit "notes.txt")) (Some (lit "inline"))
  = Ok (lit "from the file").
Proof.
  assert (Hne : lit "notes.txt" <> []) by discriminate.
  split; [exact Hne | split; [reflexivity |]].
  exact (load_text_prefers_file _ _ _ (Some (lit "inline")) Hne eq_refl).
Defined.

(** X2. The successful run: with a non-empty body and a count [k] from
    [count_tokens], [main] calls the estimator once, prints the sample
    block only when [--show-sample] is positive (the first N characters
    of the body), then the model, the character count and [k], and
    ends with status 0. *)
Theorem main_reports_count (lower : str -> str) rt fs a body k :
  load_text fs (file a) (text a) = Ok body -> body <> [] ->
  count_tokens lower rt body (model a) = Ok k ->
  run (main lower rt fs a) =
  {| events := Estimate body (model a)
               :: sample_lines body (show_sample a)
               ++ report_lines (model a) body k;
     ending := Exited 0 |}.
Proof.
  intros Hbody Hne Hcount. unfold run, main, bind, lift.
  rewrite Hbody. destruct body as [| c body']; [congruence |].
  simpl truthy. simpl negb. cbv iota. unfold emit. cbv beta iota.
  rewrite Hcount. unfold sample_lines.
  destruct (0 <? show_sample a); reflexivity.
Qed.

Lemma main_reports_count_witness :
  let a := {| text := Some (lit "Hello world"); file := None;
              model := lit "gpt-4o-mini"; show_sample := 5 |} in
  load_text empty_fs (file a) (text a) = Ok (lit "Hello world") /\
  lit "Hello world" <> [] /\
  count_tokens ascii_lower no_tiktoken (lit "Hello world") (model a) = Ok 2 /\
  run (main ascii_lower no_tiktoken empty_fs a) =
  {| events := Estimate (lit "Hello world") (lit "gpt-4o-mini")
               :: sample_lines (lit "Hello world") 5
               ++ report_lines (lit "gpt-4o-mini") (lit "Hello world") 2;
     ending := Exited 0 |}.
Proof.
  cbv zeta.
  assert (Hne : lit "Hello world" <> []) by discriminate.
  split; [reflexivity | split; [exact Hne | split; [reflexivity |]]].
  exact (main_reports_count ascii_lower no_tiktoken empty_fs
           {| text := Some (lit "Hello world"); file := None;
              model := lit "gpt-4o-mini"; show_sample := 5 |}
           (lit "Hello world") 2 eq_refl Hne eq_refl).
Defined.

(** X3. The [--model] option never changes the count: [count_tokens]
    gives the same result, value or exception, for any two model names,
    on the exact path as on the heuristic one. *)
Theorem count_tokens_same_for_every_model (lower : str -> str) rt t m m' :
  count_tokens lower rt t m = count_tokens lower rt t m'.
Proof. apply count_tokens_ignores_model. Qed.

(** X4. The heuristic estimate is monotone in the length of the text:
    without a usable [tiktoken], a text at least as long as another
    gets a count at least as large. *)
Theorem heuristic_count_monotone (lower : str -> str) rt e t1 t2 m1 m2 :
  import_tiktoken rt = Raise e -> is_Exception e = true ->
  len t1 <= len t2 ->
  exists k1 k2,
    count_tokens lower rt t1 m1 = Ok k1 /\
    count_tokens lower rt t2 m2 = Ok k2 /\
    k1 <= k2.
Proof.
  intros Himport Hexc Hlen.
  exists (Z.max 1 (len t1 / 4)), (Z.max 1 (len t2 / 4)).
  split; [| split].
  - apply (count_tokens_falls_back lower) with e; [now apply import_raises | exact Hexc].
  - apply (count_tokens_falls_back lower) with e; [now apply import_raises | exact Hexc].
  - pose proof (Z.div_le_mono (len t1) (len t2) 4 ltac:(lia) Hlen). lia.
Qed.

Lemma heuristic_count_monotone_witness :
  exists k1 k2,
    count_tokens ascii_lower no_tiktoken (lit "Hello") (lit "gpt-4") = Ok k1 /\
    count_tokens ascii_lower no_tiktoken (lit "Hello world") (lit "o1") = Ok k2 /\
    k1 <= k2.
Proof.
  apply (heuristic_count_monotone ascii_lower no_tiktoken
           (Exception "ModuleNotFoundError" (Some (lit "No module named 'tiktoken'")))
           (lit "Hello") (lit "Hello world") (lit "gpt-4") (lit "o1"));
    [reflexivity | reflexivity | unfold len; simpl; lia].
Defined.

(** X5. The heuristic estimate is within one token of a quarter of the
    length and never zero: a text shorter than four characters, the
    empty one included, counts 1, and otherwise
    [4 * k <= len(text) < 4 * k + 4]. *)
Theorem heuristic_count_bounds (lower : str -> str) rt e t m :
  import_tiktoken rt = Raise e -> is_Exception e = true ->
  exists k,
    count_tokens lower rt t m = Ok k /\
    (len t < 4 -> k = 1) /\
    (4 <= len t -> 4 * k <= len t < 4 * k + 4).
Proof.
  intros Himport Hexc. exists (Z.max 1 (len t / 4)). split; [| split].
  - apply (count_tokens_falls_back lower) with e; [now apply import_raises | exact Hexc].
  - intros Hshort. assert (0 <= len t) by (unfold len; lia).
    rewrite Z.div_small by lia. reflexivity.
  - intros Hlong.
    pose proof (Z.div_le_mono 4 (len t) 4 ltac:(lia) Hlong) as Hq.
    change (4 / 4) with 1 in Hq. rewrite Z.max_r by lia.
    pose proof (Z.mul_div_le (len t) 4 ltac:(lia)).
    pose proof (Z.mul_succ_div_gt (len t) 4 ltac:(lia)). lia.
Qed.

Lemma heuristic_count_bounds_witness :
  exists k,
    count_tokens ascii_lower no_tiktoken [] (lit "gpt-4") = Ok k /\
    (len (@nil codepoint) < 4 -> k = 1) /\
    (4 <= len (@nil codepoint) -> 4 * k <= len (@nil codepoint) < 4 * k + 4).
Proof.
  apply (heuristic_count_bounds ascii_lower no_tiktoken
           (Exception "ModuleNotFoundError" (Some (lit "No module named 'tiktoken'")))
           [] (lit "gpt-4")); reflexivity.
Defined.

(** X6. [count_tokens] falls back for errors only: an exception of the
    exact path that is not an instance of [Exception] (an interrupt
    while encoding, say) is not replaced by the heuristic and reaches
    the caller. *)
Theorem count_tokens_propagates_non_Exception (lower : str -> str) rt t m e :
  exact_path_raises lower rt t m e -> is_Exception e = false ->
  count_tokens lower rt t m = Raise e.
Proof. apply count_tokens_lets_non_Exception_through. Qed.

Lemma count_tokens_propagates_non_Exception_witness :
  exact_path_raises ascii_lower interrupted_encode (lit "Hello") (lit "gpt-4")
    (BaseException "KeyboardInterrupt") /\
  count_tokens ascii_lower interrupted_encode (lit "Hello") (lit "gpt-4")
  = Raise (BaseException "KeyboardInterrupt").
Proof.
  assert (Hraised : exact_path_raises ascii_lower interrupted_encode
                      (lit "Hello") (lit "gpt-4")
                      (BaseException "KeyboardInterrupt")).
  { eapply encode_raises; reflexivity. }
  split; [exact Hraised |].
  exact (count_tokens_propagates_non_Exception ascii_lower interrupted_encode
           (lit "Hello") (lit "gpt-4") _ Hraised eq_refl).
Defined.

(** X7. A file that exists but cannot be read is not reported like a
    missing one: the error of [read_text] leaves [main] uncaught, the
    estimator is not called and nothing is printed. *)
Theorem main_crashes_on_unreadable_file (lower : str -> str) rt fs a f e :
  file a = Some f -> f <> [] -> fs f = Unreadable e -> is_Exception e = true ->
  run (main lower rt fs a) = {| events := []; ending := Crashed e |}.
Proof.
  intros Hfile Hf Hlocked Hexc. unfold run, main, bind, lift, load_text.
  rewrite Hfile. destruct f as [| c f']; [congruence |].
  simpl truthy. cbv iota. rewrite Hlocked.
  destruct e as [arg | cls msg | cls]; [discriminate | reflexivity | discriminate].
Qed.

Lemma main_crashes_on_unreadable_file_witness :
  let a := {| text := None; file := Some (lit "secret.txt");
              model := lit "gpt-4o-mini"; show_sample := 0 |} in
  lit "secret.txt" <> [] /\
  run (main ascii_lower no_tiktoken (locked_fs (lit "secret.txt")) a) =
  {| events := []; ending := Crashed (Exception "PermissionError" None) |}.
Proof.
  cbv zeta.
  assert (Hne : lit "secret.txt" <> []) by discriminate.
  split; [exact Hne |].
  exact (main_crashes_on_unreadable_file ascii_lower no_tiktoken
           (locked_fs (lit "secret.txt"))
           {| text := None; file := Some (lit "secret.txt");
              model := lit "gpt-4o-mini"; show_sample := 0 |}
           (lit "secret.txt") _ eq_refl Hne eq_refl eq_refl).
Defined.

End TokensMore.

(* ===================================================================== *)
(** * More on the top-p script                                            *)
(* ===================================================================== *)

Module TopPMore.

Import TopP Scenarios ScriptFacts TopPFacts.
Local Open Scope Z_scope.

Section Parsing.

Variable py_float : str -> option float.
Variable float_str : float -> str.

(** ** What [parse_sweep] returns *)

Lemma parse_chunks_returns chunks :
  forall vals out,
    parse_chunks py_float float_str chunks vals = Ok out ->
    Forall (acceptable py_float) chunks /\
    out = vals ++ chunk_values py_float chunks.
Proof.
  induction chunks as [| chunk rest IH]; intros vals out; simpl.
  - intros [= <-]. split; [constructor | now rewrite app_nil_r].
  - destruct (truthy (strip chunk)) eqn:Hs; simpl.
    + destruct (py_float (strip chunk)) as [v |] eqn:Hv; [| discriminate].
      destruct (in_unit_interval v) eqn:Hin; simpl; [| discriminate].
      intros Hrest. destruct (IH _ _ Hrest) as [Hacc ->]. split.
      * constructor; [right; eauto | exact Hacc].
      * now rewrite <- app_assoc.
    + intros Hrest. destruct (IH _ _ Hrest) as [Hacc ->]. split.
      * constructor; [now left | exact Hacc].
      * reflexivity.
Qed.

Lemma parse_chunks_of_acceptable chunks :
  Forall (acceptable py_float) chunks ->
  forall vals,
    parse_chunks py_float float_str chunks vals
    = Ok (vals ++ chunk_values py_float chunks).
Proof.
  induction 1 as [| chunk rest Hchunk Hrest IH]; intros vals; simpl.
  - now rewrite app_nil_r.
  - destruct Hchunk as [Hblank | (v & Hv & Hin)].
    + rewrite Hblank. simpl. apply IH.
    + destruct (truthy (strip chunk)); simpl.
      * rewrite Hv, Hin. simpl. rewrite IH. now rewrite <- app_assoc.
      * apply IH.
Qed.

Lemma chunk_values_of_blanks chunks :
  Forall (fun chunk => truthy (strip chunk) = false) chunks ->
  chunk_values py_float chunks = [].
Proof.
  induction 1 as [| chunk rest Hblank _ IH]; simpl; [reflexivity |].
  now rewrite Hblank.
Qed.

Lemma parse_chunks_stops_at_bad_chunk chunks chunk :
  In chunk chunks ->
  truthy (strip chunk) = true ->
  (py_float (strip chunk) = None \/
   exists v, py_float (strip chunk) = Some v /\ in_unit_interval v = false) ->
  forall vals, exists msg,
    parse_chunks py_float float_str chunks vals = Raise (SystemExit (ExitMessage msg)).
Proof.
  intros Hin Hs Hbad.
  induction chunks as [| c rest IH]; [contradiction |].
  intros vals. simpl. destruct Hin as [-> | Hin].
  - rewrite Hs. simpl. destruct Hbad as [-> | (v & -> & ->)]; simpl; eauto.
  - destruct (truthy (strip c)); simpl; [| now apply IH].
    destruct (py_float (strip c)) as [w |]; [| eauto].
    destruct (in_unit_interval w); simpl; [now apply IH | eauto].
Qed.

End Parsing.

(** X8. Whatever [parse_sweep] returns is a non-empty list of values
    that all lie in [0.0, 1.0]. *)
Theorem parse_sweep_returns_valid_values py_float float_str s vals :
  parse_sweep py_float float_str s = Ok vals ->
  vals <> [] /\ Forall (fun v => in_unit_interval v = true) vals.
Proof. apply parse_sweep_in_range. Qed.

Lemma parse_sweep_returns_valid_values_witness :
  parse_sweep sample_float sample_float_str (lit "0.5, ,0.5") = Ok [0.5%float; 0.5%float] /\
  [0.5%float; 0.5%float] <> [] /\
  Forall (fun v => in_unit_interval v = true) [0.5%float; 0.5%float].
Proof.
  split; [reflexivity |].
  exact (parse_sweep_returns_valid_values sample_float sample_float_str
           (lit "0.5, ,0.5") [0.5%float; 0.5%float] eq_refl).
Defined.

(** X9. One bad chunk anywhere in [--sweep] ends [parse_sweep] with a
    [SystemExit] carrying a message: a non-blank chunk that [float]
    refuses, or one whose value is outside [0.0, 1.0]; the values
    before and after it do not matter. *)
Theorem parse_sweep_rejects_bad_chunk py_float float_str s chunk :
  In chunk (split 44%N s) ->
  truthy (strip chunk) = true ->
  (py_float (strip chunk) = None \/
   exists v, py_float (strip chunk) = Some v /\ in_unit_interval v = false) ->
  exists msg,
    parse_sweep py_float float_str s = Raise (SystemExit (ExitMessage msg)).
Proof.
  intros Hin Hs Hbad. unfold parse_sweep.
  destruct (parse_chunks_stops_at_bad_chunk py_float float_str _ _ Hin Hs Hbad [])
    as [msg ->].
  eauto.
Qed.

Lemma parse_sweep_rejects_bad_chunk_witness :
  In (lit " x") (split 44%N (lit "0.5, x,0.5")) /\
  exists msg,
    parse_sweep sample_float sample_float_str (lit "0.5, x,0.5")
    = Raise (SystemExit (ExitMessage msg)).
Proof.
  assert (Hin : In (lit " x") (split 44%N (lit "0.5, x,0.5")))
    by (right; left; reflexivity).
  split; [exact Hin |].
  exact (parse_sweep_rejects_bad_chunk sample_float sample_float_str
           (lit "0.5, x,0.5") (lit " x") Hin eq_refl (or_introl eq_refl)).
Defined.

(** X10. A [--sweep] made of commas and blanks only is refused with
    ["--sweep provided but empty after parsing"]. *)
Theorem parse_sweep_rejects_blank_sweep py_float float_str s :
  Forall (fun chunk => truthy (strip chunk) = false) (split 44%N s) ->
  parse_sweep py_float float_str s =
  Raise (SystemExit (ExitMessage (lit "--sweep provided but empty after parsing"))).
Proof.
  intros Hblank. unfold parse_sweep.
  rewrite (parse_chunks_of_acceptable py_float float_str).
  - now rewrite (chunk_values_of_blanks py_float _ Hblank).
  - eapply Forall_impl; [| exact Hblank]. intros chunk Hb. now left.
Qed.

Lemma parse_sweep_rejects_blank_sweep_witness :
  Forall (fun chunk => truthy (strip chunk) = false) (split 44%N (lit " , ,")) /\
  parse_sweep sample_float sample_float_str (lit " , ,") =
  Raise (SystemExit (ExitMessage (lit "--sweep provided but empty after parsing"))).
Proof.
  assert (Hblank : Forall (fun chunk => truthy (strip chunk) = false)
                          (split 44%N (lit " , ,")))
    by (repeat constructor).
  split; [exact Hblank |].
  exact (parse_sweep_rejects_blank_sweep sample_float sample_float_str
           (lit " , ,") Hblank).
Defined.

(** X11. [parse_sweep] succeeds exactly when every chunk is blank or a
    number of [0.0, 1.0] and at least one is a number; the result is
    then the numbers of the non-blank chunks, in the order written
    (repetitions kept). *)
Theorem parse_sweep_keeps_values_in_order py_float float_str s vals :
  parse_sweep py_float float_str s = Ok vals <->
  Forall (acceptable py_float) (split 44%N s) /\
  vals = chunk_values py_float (split 44%N s) /\
  vals <> [].
Proof.
  unfold parse_sweep. split.
  - destruct (parse_chunks py_float float_str (split 44%N s) [])
      as [[| v0 vs] | e] eqn:Hchunks; try discriminate.
    intros [= <-]. destruct (parse_chunks_returns _ _ _ _ _ Hchunks) as [Hacc Hout].
    split; [exact Hacc | split; [exact Hout | discriminate]].
  - intros (Hacc & -> & Hne).
    rewrite (parse_chunks_of_acceptable py_float float_str _ Hacc). simpl.
    destruct (chunk_values py_float (split 44%N s)); [congruence | reflexivity].
Qed.

Lemma parse_sweep_keeps_values_in_order_witness :
  parse_sweep sample_float sample_float_str (lit "0.5,,0.5") = Ok [0.5%float; 0.5%float] /\
  chunk_values sample_float (split 44%N (lit "0.5,,0.5")) = [0.5%float; 0.5%float].
Proof.
  assert (Hparse : parse_sweep sample_float sample_float_str (lit "0.5,,0.5")
                   = Ok [0.5%float; 0.5%float]) by reflexivity.
  split; [exact Hparse |].
  destruct (proj1 (parse_sweep_keeps_values_in_order sample_float sample_float_str
                     (lit "0.5,,0.5") [0.5%float; 0.5%float]) Hparse)
    as (_ & Hvals & _).
  symmetry. exact Hvals.
Defined.

(** ** Runs of [main] *)

Section Running.

Variable py_float : str -> option float.
Variable float_str : float -> str.

(** The loop over the values, as [main] runs it with the client [c]. *)
Lemma main_loops_over_values env c a t :
  ready env c ->
  main py_float float_str env a t =
  bind (lift (values_to_try py_float float_str a))
       (fun p_vals =>
          for_each p_vals (fun p_val =>
            bind (emit (banner float_str a p_val))
                 (fun _ => for_each (range (n a))
                             (sample float_str c a (req_messages (request_with a p_val))
                                     p_val))))
       t.
Proof.
  intros Hready. rewrite (main_when_ready py_float float_str env c a t Hready).
  reflexivity.
Qed.

Lemma sample_answered c a p_val i t content more :
  create c t (request_with a p_val) = Ok (content :: more) ->
  exists out,
    sample float_str c a (req_messages (request_with a p_val)) p_val i t
    = (t ++ Request (request_with a p_val) :: out, Ok tt) /\
    requests out = [].
Proof.
  intros Hcreate.
  unfold sample, bind, try_catch, chat_completions_create, history, print, emit, lift, ret.
  unfold request_with in *. simpl. rewrite Hcreate. simpl.
  destruct (1 <? n a); eexists; (split; [rewrite <- ?app_assoc; reflexivity | reflexivity]).
Qed.

Lemma bind_raised {A B} (m : M A) (k : A -> M B) t t' e :
  m t = (t', Raise e) -> bind m k t = (t', Raise e).
Proof. intros Hm. unfold bind. now rewrite Hm. Qed.

Lemma sample_failed c a p_val i t e :
  create c t (request_with a p_val) = Raise e ->
  is_Exception e = true ->
  sample float_str c a (req_messages (request_with a p_val)) p_val i t
  = (t ++ [Request (request_with a p_val); failure_line float_str p_val e],
     Raise (SystemExit (ExitCode 2))).
Proof.
  intros Hcreate Hexc.
  unfold sample, chat_completions_create, history, eprint, emit,
    lift, sys_exit, raise, try_catch, bind.
  cbv beta iota.
  change {| req_model := model a;
            req_messages := req_messages (request_with a p_val);
            req_temperature := temperature a;
            req_top_p := Some p_val |} with (request_with a p_val).
  rewrite Hcreate, Hexc. unfold failure_line. now rewrite <- app_assoc.
Qed.

Lemma sample_without_choice c a p_val i t :
  create c t (request_with a p_val) = Ok [] ->
  sample float_str c a (req_messages (request_with a p_val)) p_val i t
  = (t ++ [Request (request_with a p_val)], Raise (Exception "IndexError" None)).
Proof.
  intros Hcreate.
  unfold sample, chat_completions_create, history, emit, lift, try_catch, bind.
  cbv beta iota.
  change {| req_model := model a;
            req_messages := req_messages (request_with a p_val);
            req_temperature := temperature a;
            req_top_p := Some p_val |} with (request_with a p_val).
  rewrite Hcreate. reflexivity.
Qed.

(** The run when the first sample of the first value ends in [e]. *)
Lemma main_ends_in_first_sample env c a p_val rest t e :
  ready env c ->
  values_to_try py_float float_str a = Ok (p_val :: rest) ->
  0 < n a ->
  sample float_str c a (req_messages (request_with a p_val)) p_val 0
         [banner float_str a p_val]
  = (t, Raise e) ->
  main py_float float_str env a [] = (t, Raise e).
Proof.
  intros Hready Hvals Hn Hsample.
  rewrite (main_loops_over_values env c a [] Hready).
  assert (Hrange : exists more, range (n a) = 0 :: more).
  { unfold range. destruct (Z.to_nat (n a)) eqn:Hnat; [lia |]. simpl. eauto. }
  destruct Hrange as [more Hrange].
  rewrite (bind_ok _ _ [] [] (p_val :: rest)) by (unfold lift; now rewrite Hvals).
  simpl for_each. rewrite Hrange. simpl for_each.
  apply bind_raised.
  rewrite (bind_ok _ _ [] [banner float_str a p_val] tt) by reflexivity.
  apply bind_raised. exact Hsample.
Qed.

Lemma samples_answered c a p_val :
  always_answers c ->
  forall indices t, exists t',
    for_each indices
      (sample float_str c a (req_messages (request_with a p_val)) p_val) t
    = (t', Ok tt) /\
    requests t' = requests t ++ repeat (request_with a p_val) (List.length indices).
Proof.
  intros Hc. induction indices as [| i indices IH]; intros t; simpl.
  - exists t. split; [reflexivity | now rewrite app_nil_r].
  - destruct (Hc t (request_with a p_val)) as (content & more & Hcreate).
    destruct (sample_answered c a p_val i t content more Hcreate) as (out & Hsample & Hout).
    rewrite (bind_ok _ _ t _ tt Hsample).
    destruct (IH (t ++ Request (request_with a p_val) :: out)) as (t' & Hloop & Hreqs).
    exists t'. split; [exact Hloop |].
    rewrite Hreqs, requests_app. simpl. rewrite Hout. simpl.
    now rewrite <- app_assoc.
Qed.

Lemma values_answered c a :
  always_answers c ->
  forall p_vals t, exists t',
    for_each p_vals (fun p_val =>
      bind (emit (banner float_str a p_val))
           (fun _ => for_each (range (n a))
                       (sample float_str c a (req_messages (request_with a p_val)) p_val))) t
    = (t', Ok tt) /\
    requests t' =
    requests t ++ flat_map (fun p_val => repeat (request_with a p_val) (Z.to_nat (n a))) p_vals.
Proof.
  intros Hc. induction p_vals as [| p_val p_vals IH]; intros t; simpl.
  - exists t. split; [reflexivity | now rewrite app_nil_r].
  - destruct (samples_answered c a p_val Hc (range (n a))
                (t ++ [banner float_str a p_val])) as (t1 & Hinner & Hreqs1).
    assert (Hbody : bind (emit (banner float_str a p_val))
                      (fun _ => for_each (range (n a))
                         (sample float_str c a (req_messages (request_with a p_val)) p_val)) t
                    = (t1, Ok tt)).
    { rewrite (bind_ok _ _ t (t ++ [banner float_str a p_val]) tt) by reflexivity.
      exact Hinner. }
    rewrite (bind_ok _ _ t t1 tt Hbody).
    destruct (IH t1) as (t' & Hloop & Hreqs).
    exists t'. split; [exact Hloop |].
    rewrite Hreqs, Hreqs1, requests_app. simpl. rewrite app_nil_r.
    unfold range. rewrite length_map, length_seq. now rewrite <- app_assoc.
Qed.

Lemma banners_only a (body : float -> Z -> M unit) :
  n a <= 0 ->
  forall p_vals t,
    for_each p_vals (fun p_val =>
      bind (emit (banner float_str a p_val))
           (fun _ => for_each (range (n a)) (body p_val))) t
    = (t ++ map (banner float_str a) p_vals, Ok tt).
Proof.
  intros Hn. assert (Hrange : range (n a) = []).
  { unfold range. replace (Z.to_nat (n a)) with 0%nat by lia. reflexivity. }
  rewrite Hrange. induction p_vals as [| p_val p_vals IH]; intros t; simpl.
  - unfold ret. now rewrite app_nil_r.
  - rewrite (bind_ok _ _ t (t ++ [banner float_str a p_val]) tt) by reflexivity.
    rewrite IH. now rewrite <- app_assoc.
Qed.

(** ** Every request gets its verdict *)

Lemma sample_interrupted c a p_val i t e :
  create c t (request_with a p_val) = Raise e ->
  is_Exception e = false ->
  sample float_str c a (req_messages (request_with a p_val)) p_val i t
  = (t ++ [Request (request_with a p_val)], Raise e).
Proof.
  intros Hcreate Hexc.
  unfold sample, chat_completions_create, history, emit, lift, try_catch, bind.
  cbv beta iota.
  change {| req_model := model a;
            req_messages := req_messages (request_with a p_val);
            req_temperature := temperature a;
            req_top_p := Some p_val |} with (request_with a p_val).
  rewrite Hcreate, Hexc. reflexivity.
Qed.

Lemma judged_without_request c before added res :
  requests added = [] -> judged float_str c before added res.
Proof.
  intros Hnone pre r post ->. rewrite requests_app in Hnone. simpl in Hnone.
  destruct (requests pre); discriminate.
Qed.

Lemma judged_single c before r tail res :
  requests tail = [] ->
  verdict float_str c before r tail res ->
  judged float_str c before (Request r :: tail) res.
Proof.
  intros Htail Hverdict pre r' post Heq. destruct pre as [| ev pre].
  - simpl in Heq. injection Heq as <- <-. now rewrite app_nil_r.
  - simpl in Heq. injection Heq as _ Htl. subst tail.
    rewrite requests_app in Htail. simpl in Htail.
    destruct (requests pre); discriminate.
Qed.

Lemma judged_then_answered c before added :
  judged float_str c before added (Ok tt) ->
  forall pre r post post' res,
    added = pre ++ Request r :: post ->
    verdict float_str c (before ++ pre) r post' res.
Proof.
  intros Hjudged pre r post post' res Heq. specialize (Hjudged pre r post Heq).
  unfold verdict in *.
  destruct (create c (before ++ pre) r) as [[| x xs] | e]; [| exact I |].
  - destruct Hjudged as [_ Hres]. discriminate.
  - destruct (is_Exception e); destruct Hjudged as [_ Hres]; discriminate.
Qed.

Lemma judged_app c before first second res :
  judged float_str c before first (Ok tt) ->
  judged float_str c (before ++ first) second res ->
  judged float_str c before (first ++ second) res.
Proof.
  intros Hfirst Hsecond pre r post Heq.
  apply app_eq_app in Heq. destruct Heq as [l [[Hf Hl] | [Hpre Hs]]].
  - destruct l as [| ev l].
    + simpl in Hl. rewrite app_nil_r in Hf. subst first.
      specialize (Hsecond [] r post (eq_sym Hl)). now rewrite app_nil_r in Hsecond.
    + simpl in Hl. injection Hl as <- ->.
      now apply (judged_then_answered c before first Hfirst pre r l).
  - subst pre. rewrite app_assoc. now apply Hsecond.
Qed.

Lemma sample_judged c a p_val i t :
  exists added res,
    sample float_str c a (req_messages (request_with a p_val)) p_val i t
    = (t ++ added, res) /\
    judged float_str c t added res.
Proof.
  destruct (create c t (request_with a p_val)) as [[| content more] | e] eqn:Hcreate.
  - exists [Request (request_with a p_val)], (Raise (Exception "IndexError" None)).
    split; [now apply sample_without_choice |].
    apply judged_single; [reflexivity |]. unfold verdict. now rewrite Hcreate.
  - destruct (sample_answered c a p_val i t content more Hcreate) as (out & Hsample & Hout).
    exists (Request (request_with a p_val) :: out), (Ok tt).
    split; [exact Hsample |].
    apply judged_single; [exact Hout |]. unfold verdict. now rewrite Hcreate.
  - destruct (is_Exception e) eqn:Hexc.
    + exists [Request (request_with a p_val); failure_line float_str p_val e],
        (Raise (SystemExit (ExitCode 2))).
      split; [now apply sample_failed |].
      apply judged_single; [reflexivity |]. unfold verdict. rewrite Hcreate, Hexc.
      split; [exists p_val; split; reflexivity | reflexivity].
    + exists [Request (request_with a p_val)], (Raise e).
      split; [now apply sample_interrupted |].
      apply judged_single; [reflexivity |]. unfold verdict. rewrite Hcreate, Hexc.
      split; reflexivity.
Qed.

Lemma samples_judged c a p_val :
  forall indices t, exists added res,
    for_each indices
      (sample float_str c a (req_messages (request_with a p_val)) p_val) t
    = (t ++ added, res) /\
    judged float_str c t added res.
Proof.
  induction indices as [| i indices IH]; intros t.
  - exists [], (Ok tt). split; [simpl; unfold ret; now rewrite app_nil_r |].
    now apply judged_without_request.
  - destruct (sample_judged c a p_val i t) as (first & [[] | e] & Hsample & Hfirst).
    + destruct (IH (t ++ first)) as (second & res & Hloop & Hsecond).
      exists (first ++ second), res. split.
      * simpl for_each. rewrite (bind_ok _ _ t _ tt Hsample).
        rewrite <- app_assoc in Hloop. exact Hloop.
      * now apply judged_app.
    + exists first, (Raise e). split; [| exact Hfirst].
      simpl for_each. now apply bind_raised.
Qed.

Lemma values_judged c a :
  forall p_vals t, exists added res,
    for_each p_vals (fun p_val =>
      bind (emit (banner float_str a p_val))
           (fun _ => for_each (range (n a))
                       (sample float_str c a (req_messages (request_with a p_val)) p_val))) t
    = (t ++ added, res) /\
    judged float_str c t added res.
Proof.
  induction p_vals as [| p_val p_vals IH]; intros t.
  - exists [], (Ok tt). split; [simpl; unfold ret; now rewrite app_nil_r |].
    now apply judged_without_request.
  - destruct (samples_judged c a p_val (range (n a)) (t ++ [banner float_str a p_val]))
      as (inner & res1 & Hinner & Hjudged).
    assert (Hbody : bind (emit (banner float_str a p_val))
                      (fun _ => for_each (range (n a))
                         (sample float_str c a (req_messages (request_with a p_val)) p_val)) t
                    = (t ++ (banner float_str a p_val :: inner), res1)).
    { rewrite (bind_ok _ _ t (t ++ [banner float_str a p_val]) tt) by reflexivity.
      rewrite Hinner. now rewrite <- app_assoc. }
    assert (Hfirst : judged float_str c t (banner float_str a p_val :: inner) res1).
    { change (banner float_str a p_val :: inner)
        with ([banner float_str a p_val] ++ inner).
      apply judged_app; [now apply judged_without_request | exact Hjudged]. }
    destruct res1 as [[] | e].
    + destruct (IH (t ++ (banner float_str a p_val :: inner)))
        as (second & res & Hloop & Hsecond).
      exists ((banner float_str a p_val :: inner) ++ second), res. split.
      * simpl for_each. rewrite (bind_ok _ _ t _ tt Hbody).
        rewrite <- app_assoc in Hloop. exact Hloop.
      * now apply judged_app.
    + exists (banner float_str a p_val :: inner), (Raise e). split; [| exact Hfirst].
      simpl for_each. now apply bind_raised.
Qed.

Lemma main_judged env c a :
  ready env c ->
  exists t res,
    main py_float float_str env a [] = (t, res) /\ judged float_str c [] t res.
Proof.
  intros Hready. rewrite (main_loops_over_values env c a [] Hready).
  destruct (values_to_try py_float float_str a) as [p_vals | e] eqn:Hvals.
  - destruct (values_judged c a p_vals []) as (added & res & Hloop & Hjudged).
    exists added, res. split; [| exact Hjudged].
    rewrite (bind_ok _ _ [] [] p_vals) by reflexivity. exact Hloop.
  - exists [], (Raise e). split; [reflexivity |].
    now apply judged_without_request.
Qed.

(** A request among the events of a run is a request among those of
    the script; the run adds at most the message of a [SystemExit]
    after them. *)
Lemma request_of_run {A} (m : M A) pre r post :
  events (run m) = pre ++ Request r :: post ->
  exists post',
    fst (m []) = pre ++ Request r :: post' /\
    (post = post' \/
     exists msg, snd (m []) = Raise (SystemExit (ExitMessage msg))).
Proof.
  unfold run.
  destruct (m []) as [t [x | [[msg | code] | cls msg | cls]]]; simpl;
    try (intros ->; exists post; split; [reflexivity | now left]).
  intros Heq. destruct (exists_last (l := Request r :: post)) as (body & last & Hlast);
    [discriminate |].
  rewrite Hlast, app_assoc in Heq. apply app_inj_tail in Heq. destruct Heq as [-> <-].
  destruct body as [| ev body]; simpl in Hlast.
  - discriminate.
  - injection Hlast as <- ->. exists body. split; [reflexivity | right; eauto].
Qed.

End Running.

(** X12. With [--sweep], no request ever leaves the script with a
    nucleus value outside [0.0, 1.0], whatever the SDK does. *)
Theorem sweep_sends_valid_values_only py_float float_str env a s :
  sweep a = Some s -> truthy s = true ->
  Forall within_range (events (run (main py_float float_str env a))).
Proof. apply sweep_requests_within_range. Qed.

Lemma sweep_sends_valid_values_only_witness :
  Forall within_range
    (events (run (main sample_float sample_float_str ready_sdk sweep_twice))).
Proof.
  exact (sweep_sends_valid_values_only sample_float sample_float_str ready_sdk
           sweep_twice (lit "0.5,,0.5") eq_refl eq_refl).
Defined.

(** X13. A sweep that [parse_sweep] refuses ends the run with the
    message on standard error and exit status 1; no banner is printed
    and no request is sent, even for the valid values that came before
    the bad one. *)
Theorem main_stops_on_refused_sweep py_float float_str env c a msg :
  ready env c ->
  values_to_try py_float float_str a = Raise (SystemExit (ExitMessage msg)) ->
  run (main py_float float_str env a) =
  {| events := [Stderr [VStr msg]]; ending := Exited 1 |}.
Proof.
  intros Hready Hvals. unfold run.
  rewrite (main_loops_over_values py_float float_str env c a [] Hready).
  unfold bind, lift. rewrite Hvals. reflexivity.
Qed.

Lemma main_stops_on_refused_sweep_witness :
  ready ready_sdk echo_client /\
  run (main sample_float sample_float_str ready_sdk sweep_above_one) =
  {| events := [Stderr [VStr (lit "top_p must be between 0.0 and 1.0, got: <float>")]];
     ending := Exited 1 |}.
Proof.
  assert (Hready : ready ready_sdk echo_client).
  { split; [reflexivity |]. exists (lit "sk-test"). repeat split. }
  split; [exact Hready |].
  exact (main_stops_on_refused_sweep sample_float sample_float_str ready_sdk
           echo_client sweep_above_one _ Hready eq_refl).
Defined.

(** X14. A failing request ends the run, wherever it comes in the
    sweep: if the client raises an error on a request, that request is
    the last one; it is followed by the line
    ["Request failed at top_p ..."] on standard error and nothing else,
    and the exit status is 2. *)
Theorem main_stops_at_failed_request py_float float_str env c a pre r post e :
  ready env c ->
  events (run (main py_float float_str env a)) = pre ++ Request r :: post ->
  create c pre r = Raise e ->
  is_Exception e = true ->
  (exists p_val, req_top_p r = Some p_val /\ post = [failure_line float_str p_val e]) /\
  ending (run (main py_float float_str env a)) = Exited 2.
Proof.
  intros Hready Hevents Hcreate Hexc.
  destruct (main_judged py_float float_str env c a Hready) as (t & res & Hmain & Hjudged).
  destruct (request_of_run _ pre r post Hevents) as (post' & Htrace & Hpost).
  rewrite Hmain in Htrace, Hpost. simpl in Htrace, Hpost.
  specialize (Hjudged pre r post' Htrace). unfold verdict in Hjudged. simpl in Hjudged.
  rewrite Hcreate, Hexc in Hjudged. destruct Hjudged as [Hline ->].
  destruct Hpost as [-> | [msg Hmsg]]; [| discriminate].
  split; [exact Hline |]. unfold run. now rewrite Hmain.
Qed.

Lemma main_stops_at_failed_request_witness :
  let o := run (main sample_float sample_float_str (sdk_with flaky_client) sweep_twice) in
  let pre := [ banner sample_float_str sweep_twice 0.5%float;
               Request (request_with sweep_twice 0.5%float);
               Stdout [VFmt [VStr (lit "-- Sample "); VInt 1; VStr (lit " --")]];
               Stdout [VStr (lit "ok")];
               Stdout [] ] in
  events o = pre ++ Request (request_with sweep_twice 0.5%float)
                 :: [failure_line sample_float_str 0.5%float
                       (Exception "APITimeoutError" None)] /\
  ending o = Exited 2.
Proof.
  cbv zeta.
  assert (Hready : ready (sdk_with flaky_client) flaky_client).
  { split; [reflexivity |]. exists (lit "sk-test"). repeat split. }
  split; [reflexivity |].
  exact (proj2 (main_stops_at_failed_request sample_float sample_float_str
                  (sdk_with flaky_client) flaky_client sweep_twice
                  [ banner sample_float_str sweep_twice 0.5%float;
                    Request (request_with sweep_twice 0.5%float);
                    Stdout [VFmt [VStr (lit "-- Sample "); VInt 1; VStr (lit " --")]];
                    Stdout [VStr (lit "ok")];
                    Stdout [] ]
                  (request_with sweep_twice 0.5%float)
                  [failure_line sample_float_str 0.5%float
                     (Exception "APITimeoutError" None)]
                  (Exception "APITimeoutError" None)
                  Hready eq_refl eq_refl eq_refl)).
Defined.

(** X15. With [--n 0] or a negative [--n] the script sends nothing: it
    prints one banner per value and ends with status 0. *)
Theorem main_without_samples py_float float_str env c a p_vals :
  ready env c ->
  values_to_try py_float float_str a = Ok p_vals ->
  n a <= 0 ->
  run (main py_float float_str env a) =
  {| events := map (banner float_str a) p_vals; ending := Exited 0 |}.
Proof.
  intros Hready Hvals Hn. unfold run.
  rewrite (main_loops_over_values py_float float_str env c a [] Hready).
  rewrite (bind_ok _ _ [] [] p_vals) by (unfold lift; now rewrite Hvals).
  rewrite (banners_only float_str a _ Hn). reflexivity.
Qed.

Lemma main_without_samples_witness :
  let a := {| prompt := lit "Hi"; model := lit "gpt-4o-mini"; top_p := 0.5%float;
              sweep := None; temperature := 0.5%float; n := 0 |} in
  ready ready_sdk echo_client /\
  run (main sample_float sample_float_str ready_sdk a) =
  {| events := [banner sample_float_str a 0.5%float]; ending := Exited 0 |}.
Proof.
  cbv zeta.
  assert (Hready : ready ready_sdk echo_client).
  { split; [reflexivity |]. exists (lit "sk-test"). repeat split. }
  split; [exact Hready |].
  exact (main_without_samples sample_float sample_float_str ready_sdk echo_client
           {| prompt := lit "Hi"; model := lit "gpt-4o-mini"; top_p := 0.5%float;
              sweep := None; temperature := 0.5%float; n := 0 |}
           [0.5%float] Hready eq_refl ltac:(simpl; lia)).
Defined.

(** X16. When every request is answered, the script sends [--n]
    requests for each value, value after value in the order given, all
    with the same model, messages and temperature, and ends with
    status 0. *)
Theorem main_sends_n_requests_per_value py_float float_str env c a p_vals :
  ready env c ->
  always_answers c ->
  values_to_try py_float float_str a = Ok p_vals ->
  let o := run (main py_float float_str env a) in
  requests (events o) =
  flat_map (fun p_val => repeat (request_with a p_val) (Z.to_nat (n a))) p_vals /\
  ending o = Exited 0.
Proof.
  intros Hready Hc Hvals. cbv zeta. unfold run.
  rewrite (main_loops_over_values py_float float_str env c a [] Hready).
  rewrite (bind_ok _ _ [] [] p_vals) by (unfold lift; now rewrite Hvals).
  destruct (values_answered float_str c a Hc p_vals []) as (t' & -> & Hreqs).
  simpl. split; [exact Hreqs | reflexivity].
Qed.

Lemma main_sends_n_requests_per_value_witness :
  ready ready_sdk echo_client /\ always_answers echo_client /\
  requests (events (run (main sample_float sample_float_str ready_sdk sweep_twice))) =
  [ request_with sweep_twice 0.5%float; request_with sweep_twice 0.5%float;
    request_with sweep_twice 0.5%float; request_with sweep_twice 0.5%float ].
Proof.
  assert (Hready : ready ready_sdk echo_client).
  { split; [reflexivity |]. exists (lit "sk-test"). repeat split. }
  assert (Hc : always_answers echo_client).
  { intros t r. now exists (Some (lit "ok")), []. }
  split; [exact Hready | split; [exact Hc |]].
  exact (proj1 (main_sends_n_requests_per_value sample_float sample_float_str
                  ready_sdk echo_client sweep_twice [0.5%float; 0.5%float]
                  Hready Hc eq_refl)).
Defined.

(** X17. A response without any choice is not handled, wherever it
    comes in the sweep: the request that got it is the last event of
    the run, which ends on the [IndexError] of [resp.choices[0]] that
    nothing catches. *)
Theorem main_crashes_on_empty_choices py_float float_str env c a pre r post :
  ready env c ->
  events (run (main py_float float_str env a)) = pre ++ Request r :: post ->
  create c pre r = Ok [] ->
  post = [] /\
  ending (run (main py_float float_str env a)) = Crashed (Exception "IndexError" None).
Proof.
  intros Hready Hevents Hcreate.
  destruct (main_judged py_float float_str env c a Hready) as (t & res & Hmain & Hjudged).
  destruct (request_of_run _ pre r post Hevents) as (post' & Htrace & Hpost).
  rewrite Hmain in Htrace, Hpost. simpl in Htrace, Hpost.
  specialize (Hjudged pre r post' Htrace). unfold verdict in Hjudged. simpl in Hjudged.
  rewrite Hcreate in Hjudged. destruct Hjudged as [-> ->].
  destruct Hpost as [-> | [msg Hmsg]]; [| discriminate].
  split; [reflexivity |]. unfold run. now rewrite Hmain.
Qed.

Lemma main_crashes_on_empty_choices_witness :
  let o := run (main sample_float sample_float_str (sdk_with fading_client) sweep_twice) in
  let pre := [ banner sample_float_str sweep_twice 0.5%float;
               Request (request_with sweep_twice 0.5%float);
               Stdout [VFmt [VStr (lit "-- Sample "); VInt 1; VStr (lit " --")]];
               Stdout [VStr (lit "ok")];
               Stdout [] ] in
  events o = pre ++ [Request (request_with sweep_twice 0.5%float)] /\
  ending o = Crashed (Exception "IndexError" None).
Proof.
  cbv zeta.
  assert (Hready : ready (sdk_with fading_client) fading_client).
  { split; [reflexivity |]. exists (lit "sk-test"). repeat split. }
  split; [reflexivity |].
  exact (proj2 (main_crashes_on_empty_choices sample_float sample_float_str
                  (sdk_with fading_client) fading_client sweep_twice
                  [ banner sample_float_str sweep_twice 0.5%float;
                    Request (request_with sweep_twice 0.5%float);
                    Stdout [VFmt [VStr (lit "-- Sample "); VInt 1; VStr (lit " --")]];
                    Stdout [VStr (lit "ok")];
                    Stdout [] ]
                  (request_with sweep_twice 0.5%float) []
                  Hready eq_refl eq_refl)).
Defined.

End TopPMore.

(* ===================================================================== *)
(** * More on the few-shot script                                         *)
(* ===================================================================== *)

Module FewShotMore.

Import FewShot Scenarios ScriptFacts FewShotFacts.
Local Open Scope Z_scope.

(** ** Objects *)

Lemma contains_in_object key bindings :
  json_contains key (JDict bindings) = Ok (has_key key bindings).
Proof.
  unfold json_contains, has_key, lookup. f_equal.
  induction bindings as [| kv bindings IH]; simpl; [reflexivity |].
  destruct (str_eqb key (fst kv)); [reflexivity | exact IH].
Qed.

Lemma getitem_in_object key bindings v :
  lookup key bindings = Some v -> json_getitem (JDict bindings) key = Ok v.
Proof.
  unfold json_getitem, lookup.
  destruct (find _ bindings) as [kv |]; [| discriminate].
  now intros [= <-].
Qed.

Section Loading.

Variable json_loads : str -> result json.
Variable read_lines : str -> result FewShot.reading.

Lemma load_lines_blank instruction line rest pairs :
  nonblank line = false ->
  load_lines json_loads instruction (line :: rest) pairs
  = load_lines json_loads instruction rest pairs.
Proof. unfold nonblank. intros Hblank. simpl. now rewrite Hblank. Qed.

Lemma load_lines_step instruction line rest pairs :
  load_lines json_loads instruction (line :: rest) pairs =
  (let line' := strip line in
   if negb (truthy line') then load_lines json_loads instruction rest pairs
   else
     obj <- json_loads line' ;;
     has_user <- json_contains (lit "user") obj ;;
     has_pair <- (if has_user then json_contains (lit "assistant") obj
                  else Ok false) ;;
     if has_pair then
       u <- json_getitem obj (lit "user") ;;
       a <- json_getitem obj (lit "assistant") ;;
       load_lines json_loads instruction rest
         (pairs ++ [{| ex_user := VJson u; ex_assistant := VJson a |}])
     else
       has_input <- json_contains (lit "input") obj ;;
       has_io <- (if has_input then json_contains (lit "output") obj
                  else Ok false) ;;
       if has_io then
         i <- json_getitem obj (lit "input") ;;
         o <- json_getitem obj (lit "output") ;;
         load_lines json_loads instruction rest
           (pairs ++ [{| ex_user := normalized_input instruction i;
                         ex_assistant := VJson o |}])
       else
         Raise (Exception "ValueError"
                  (Some (lit "Each JSONL line must have user/assistant or input/output keys"))))%result.
Proof. reflexivity. Qed.

(** One step of the loop on a line that holds a JSON object. *)
Lemma load_lines_object instruction line rest pairs bindings :
  nonblank line = true ->
  json_loads (strip line) = Ok (JDict bindings) ->
  load_lines json_loads instruction (line :: rest) pairs =
  match lookup (lit "user") bindings, lookup (lit "assistant") bindings with
  | Some u, Some v =>
      load_lines json_loads instruction rest
        (pairs ++ [{| ex_user := VJson u; ex_assistant := VJson v |}])
  | _, _ =>
      match lookup (lit "input") bindings, lookup (lit "output") bindings with
      | Some i, Some o =>
          load_lines json_loads instruction rest
            (pairs ++ [{| ex_user := normalized_input instruction i;
                          ex_assistant := VJson o |}])
      | _, _ =>
          Raise (Exception "ValueError"
                   (Some (lit "Each JSONL line must have user/assistant or input/output keys")))
      end
  end.
Proof.
  unfold nonblank. intros Hline Hjson.
  rewrite load_lines_step.
  cbv zeta. rewrite Hline, Hjson. simpl negb. cbv iota. unfold rbind at 1.
  rewrite !contains_in_object. unfold has_key.
  destruct (lookup (lit "user") bindings) as [u |] eqn:Hu;
    destruct (lookup (lit "assistant") bindings) as [v |] eqn:Hv;
    unfold rbind at 1; cbv iota; unfold rbind at 1; cbv iota;
    try (rewrite (getitem_in_object _ _ _ Hu), (getitem_in_object _ _ _ Hv); reflexivity);
    (destruct (lookup (lit "input") bindings) as [i |] eqn:Hi;
     destruct (lookup (lit "output") bindings) as [o |] eqn:Ho;
     unfold rbind at 1; cbv iota; unfold rbind at 1; cbv iota;
     try reflexivity;
     rewrite (getitem_in_object _ _ _ Hi), (getitem_in_object _ _ _ Ho); reflexivity).
Qed.

Lemma load_lines_appends instruction lines :
  forall pairs out,
    load_lines json_loads instruction lines pairs = Ok out ->
    exists added,
      out = pairs ++ added /\
      List.length added = List.length (filter nonblank lines).
Proof.
  induction lines as [| line rest IH]; intros pairs out.
  - simpl. intros [= <-]. exists []. split; [now rewrite app_nil_r | reflexivity].
  - simpl. unfold nonblank at 1.
    destruct (truthy (strip line)); simpl.
    + unfold rbind.
      destruct (json_loads (strip line)) as [obj |]; [| discriminate].
      destruct (json_contains (lit "user") obj) as [has_user |]; [| discriminate].
      destruct (if has_user then json_contains (lit "assistant") obj else Ok false)
        as [[|] |]; [| | discriminate].
      * destruct (json_getitem obj (lit "user")) as [u |]; [| discriminate].
        destruct (json_getitem obj (lit "assistant")) as [v |]; [| discriminate].
        intros Hrest. destruct (IH _ _ Hrest) as (added & -> & Hlen).
        eexists. split; [now rewrite <- app_assoc |]. simpl. now rewrite Hlen.
      * destruct (json_contains (lit "input") obj) as [has_input |]; [| discriminate].
        destruct (if has_input then json_contains (lit "output") obj else Ok false)
          as [[|] |]; [| discriminate | discriminate].
        destruct (json_getitem obj (lit "input")) as [i |]; [| discriminate].
        destruct (json_getitem obj (lit "output")) as [o |]; [| discriminate].
        intros Hrest. destruct (IH _ _ Hrest) as (added & -> & Hlen).
        eexists. split; [now rewrite <- app_assoc |]. simpl. now rewrite Hlen.
    + apply IH.
Qed.

Lemma load_lines_of_blanks instruction lines pairs :
  Forall (fun line => nonblank line = false) lines ->
  load_lines json_loads instruction lines pairs = Ok pairs.
Proof.
  induction 1 as [| line rest Hblank _ IH]; [reflexivity |].
  now rewrite load_lines_blank.
Qed.

End Loading.

(** ** Runs of [main] *)

Section Running.

Variable json_loads : str -> result json.
Variable read_lines : str -> result FewShot.reading.

Lemma listing_printed a messages t :
  (if show_prompt a then
     bind (print [VStr (lit "=== Messages ===")]) (fun _ =>
     bind (for_each (enumerate messages 1) (fun im =>
             print [VFmt [VStr (lit "["); VInt (fst im); VStr (lit "] ");
                          VStr (role_name (msg_role (snd im))); VStr (lit ": ");
                          msg_content (snd im)]])) (fun _ =>
     print [VStr (lit "================" ++ [nl])]))
   else ret tt) t
  = (t ++ prompt_listing a messages, Ok tt).
Proof.
  unfold prompt_listing. destruct (show_prompt a).
  - unfold print. rewrite (bind_ok _ _ t (t ++ [Stdout [VStr (lit "=== Messages ===")]]) tt)
      by reflexivity.
    unfold bind. rewrite for_each_emit. unfold emit.
    rewrite <- !app_assoc. reflexivity.
  - unfold ret. now rewrite app_nil_r.
Qed.

Ltac enter_main Hready :=
  let Himport := fresh "Himport" in
  let key := fresh "key" in
  let Hkey := fresh "Hkey" in
  let Htruthy := fresh "Htruthy" in
  let Hclient := fresh "Hclient" in
  destruct Hready as (Himport & key & Hkey & Htruthy & Hclient);
  unfold main;
  rewrite (bind_ok _ _ [] [] tt) by (unfold try_catch, lift; now rewrite Himport);
  rewrite Hkey; simpl opt_truthy; rewrite Htruthy; simpl negb; cbv iota;
  rewrite (bind_ok _ _ [] [] tt) by reflexivity;
  rewrite (bind_ok _ _ [] [] _) by (unfold lift; rewrite Hclient; reflexivity);
  fold (examples_to_use json_loads read_lines).

Lemma main_when_loading_fails env c a e :
  TopP.ready env c ->
  examples_to_use json_loads read_lines a = Raise e ->
  is_Exception e = true ->
  main json_loads read_lines env a [] =
  ([Stderr [VFmt [VStr (lit "Failed to load examples: "); VExn e]]],
   Raise (SystemExit (ExitCode 1))).
Proof.
  intros Hready Hload Hexc. enter_main Hready.
  apply TopPMore.bind_raised.
  unfold try_catch, lift. unfold examples_to_use in Hload. rewrite Hload, Hexc.
  reflexivity.
Qed.

Lemma main_up_to_request env c a examples :
  TopP.ready env c ->
  examples_to_use json_loads read_lines a = Ok examples ->
  main json_loads read_lines env a [] =
  bind (try_catch
          (chat_completions_create c (request_for a (build_messages examples a)))
          (fun e => bind (eprint [VFmt [VStr (lit "Request failed: "); VExn e]])
                         (fun _ => sys_exit 2)))
       (fun resp =>
          bind (lift (first_choice_content resp)) (fun content =>
          bind (print [value_of_content content]) (fun _ =>
          ret (build_messages examples a))))
       (prompt_listing a (build_messages examples a)).
Proof.
  intros Hready Hload. enter_main Hready.
  rewrite (bind_ok _ _ [] [] examples)
    by (unfold try_catch, lift; unfold examples_to_use in Hload; now rewrite Hload).
  cbv zeta.
  rewrite (bind_ok _ _ [] (prompt_listing a (build_messages examples a)) tt)
    by (apply listing_printed).
  reflexivity.
Qed.

End Running.

(** X18. The message sequence has two messages per example plus the
    system message and the query. *)
Theorem build_messages_length examples a :
  List.length (build_messages examples a) = (2 * List.length examples + 2)%nat.
Proof.
  rewrite build_messages_conversation. unfold conversation. simpl.
  rewrite length_app. simpl.
  induction examples as [| ex examples IH]; simpl; [reflexivity |].
  rewrite <- plus_n_Sm in *. simpl in *. lia.
Qed.

(** X19. When [load_examples_jsonl] returns, it has read the file and
    made exactly one example per non-blank line, and there is at least
    one. *)
Theorem load_examples_jsonl_one_per_line json_loads read_lines path instruction examples :
  load_examples_jsonl json_loads read_lines path instruction = Ok examples ->
  exists lines,
    read_lines path = Ok {| yielded := lines; read_error := None |} /\
    List.length examples = List.length (filter nonblank lines) /\
    examples <> [].
Proof.
  unfold load_examples_jsonl, rbind.
  destruct (read_lines path) as [[lines [e |]] |]; simpl;
    [destruct (load_lines json_loads instruction lines []); discriminate | | discriminate].
  destruct (load_lines json_loads instruction lines []) as [[| ex out] |] eqn:Hload;
    try discriminate.
  intros [= <-]. exists lines. split; [reflexivity |].
  destruct (load_lines_appends json_loads instruction lines [] _ Hload)
    as (added & Hout & Hlen).
  simpl in Hout. subst added. split; [exact Hlen | discriminate].
Qed.

Lemma load_examples_jsonl_one_per_line_witness :
  exists examples lines,
    load_examples_jsonl two_examples_json two_examples_file
      (lit "examples.jsonl") (lit "Shorten.") = Ok examples /\
    two_examples_file (lit "examples.jsonl")
    = Ok {| yielded := lines; read_error := None |} /\
    List.length examples = List.length (filter nonblank lines) /\
    List.length examples = 2%nat.
Proof.
  eexists. 
  assert (Hload : load_examples_jsonl two_examples_json two_examples_file
                    (lit "examples.jsonl") (lit "Shorten.")
                  = Ok [ {| ex_user := VJson (JStr (lit "Q"));
                            ex_assistant := VJson (JStr (lit "A")) |};
                         {| ex_user := normalized_input (lit "Shorten.") (JStr (lit "I"));
                            ex_assistant := VJson (JStr (lit "O")) |} ])
    by reflexivity.
  destruct (load_examples_jsonl_one_per_line two_examples_json two_examples_file
              _ _ _ Hload) as (lines & Hread & Hlen & _).
  exists lines. split; [exact Hload | split; [exact Hread | split; [exact Hlen | reflexivity]]].
Defined.

(** X20. An examples file with no line, or with blank lines only, is
    refused with [ValueError("No examples found in JSONL file")]. *)
Theorem load_examples_jsonl_refuses_blank_file json_loads read_lines path instruction lines :
  read_lines path = Ok {| yielded := lines; read_error := None |} ->
  Forall (fun line => nonblank line = false) lines ->
  load_examples_jsonl json_loads read_lines path instruction =
  Raise (Exception "ValueError" (Some (lit "No examples found in JSONL file"))).
Proof.
  intros Hread Hblank. unfold load_examples_jsonl, rbind.
  rewrite Hread. simpl.
  rewrite (load_lines_of_blanks json_loads instruction lines [] Hblank).
  reflexivity.
Qed.

Lemma load_examples_jsonl_refuses_blank_file_witness :
  load_examples_jsonl no_json blank_file (lit "empty.jsonl") (lit "Shorten.") =
  Raise (Exception "ValueError" (Some (lit "No examples found in JSONL file"))).
Proof.
  apply (load_examples_jsonl_refuses_blank_file no_json blank_file
           (lit "empty.jsonl") (lit "Shorten.") [[nl]; lit "   " ++ [nl]]).
  - reflexivity.
  - repeat constructor.
Defined.

(** X21. A line whose object has both a [user] and an [assistant] key
    gives the example made of these two values as they are; [input]
    and [output] keys on the same line are ignored. *)
Theorem load_lines_prefers_user_assistant
    json_loads instruction line rest pairs bindings u v :
  nonblank line = true ->
  json_loads (strip line) = Ok (JDict bindings) ->
  lookup (lit "user") bindings = Some u ->
  lookup (lit "assistant") bindings = Some v ->
  load_lines json_loads instruction (line :: rest) pairs =
  load_lines json_loads instruction rest
    (pairs ++ [{| ex_user := VJson u; ex_assistant := VJson v |}]).
Proof.
  intros Hline Hjson Hu Hv.
  rewrite (load_lines_object json_loads instruction line rest pairs bindings Hline Hjson).
  now rewrite Hu, Hv.
Qed.

Lemma load_lines_prefers_user_assistant_witness :
  load_lines two_examples_json (lit "Shorten.") [lit " chat" ++ [nl]] [] =
  Ok [{| ex_user := VJson (JStr (lit "Q")); ex_assistant := VJson (JStr (lit "A")) |}].
Proof.
  exact (load_lines_prefers_user_assistant two_examples_json (lit "Shorten.")
           (lit " chat" ++ [nl]) [] []
           [(lit "user", JStr (lit "Q")); (lit "assistant", JStr (lit "A"));
            (lit "input", JStr (lit "ignored")); (lit "output", JStr (lit "ignored"))]
           (JStr (lit "Q")) (JStr (lit "A")) eq_refl eq_refl eq_refl eq_refl).
Defined.

(** X22. A line whose object lacks one of [user] and [assistant] but
    has both [input] and [output] is normalized: the user message is
    the instruction and the input in the prompt format of the script,
    the assistant message is the output. *)
Theorem load_lines_normalizes_input_output
    json_loads instruction line rest pairs bindings i o :
  nonblank line = true ->
  json_loads (strip line) = Ok (JDict bindings) ->
  has_key (lit "user") bindings && has_key (lit "assistant") bindings = false ->
  lookup (lit "input") bindings = Some i ->
  lookup (lit "output") bindings = Some o ->
  load_lines json_loads instruction (line :: rest) pairs =
  load_lines json_loads instruction rest
    (pairs ++ [{| ex_user := normalized_input instruction i;
                  ex_assistant := VJson o |}]).
Proof.
  intros Hline Hjson Hpair Hi Ho.
  rewrite (load_lines_object json_loads instruction line rest pairs bindings Hline Hjson).
  unfold has_key in Hpair.
  destruct (lookup (lit "user") bindings); destruct (lookup (lit "assistant") bindings);
    try discriminate; now rewrite Hi, Ho.
Qed.

Lemma load_lines_normalizes_input_output_witness :
  load_lines two_examples_json (lit "Shorten.") [lit "io" ++ [nl]] [] =
  Ok [{| ex_user := normalized_input (lit "Shorten.") (JStr (lit "I"));
         ex_assistant := VJson (JStr (lit "O")) |}].
Proof.
  exact (load_lines_normalizes_input_output two_examples_json (lit "Shorten.")
           (lit "io" ++ [nl]) [] []
           [(lit "input", JStr (lit "I")); (lit "output", JStr (lit "O"))]
           (JStr (lit "I")) (JStr (lit "O")) eq_refl eq_refl eq_refl eq_refl eq_refl).
Defined.

(** X23. A line whose object has neither a complete [user]/[assistant]
    pair nor a complete [input]/[output] pair makes the whole loading
    fail with [ValueError]: the examples read before it are lost and
    the lines after it are not looked at. *)
Theorem load_lines_refuses_incomplete_object
    json_loads instruction line rest pairs bindings :
  nonblank line = true ->
  json_loads (strip line) = Ok (JDict bindings) ->
  has_key (lit "user") bindings && has_key (lit "assistant") bindings = false ->
  has_key (lit "input") bindings && has_key (lit "output") bindings = false ->
  load_lines json_loads instruction (line :: rest) pairs =
  Raise (Exception "ValueError"
           (Some (lit "Each JSONL line must have user/assistant or input/output keys"))).
Proof.
  intros Hline Hjson Hpair Hio.
  rewrite (load_lines_object json_loads instruction line rest pairs bindings Hline Hjson).
  unfold has_key in Hpair, Hio.
  destruct (lookup (lit "user") bindings); destruct (lookup (lit "assistant") bindings);
    try discriminate;
    destruct (lookup (lit "input") bindings); destruct (lookup (lit "output") bindings);
    try discriminate; reflexivity.
Qed.

Lemma load_lines_refuses_incomplete_object_witness :
  load_lines two_examples_json (lit "Shorten.")
    [lit "half" ++ [nl]; lit "chat" ++ [nl]]
    [{| ex_user := VStr (lit "kept so far"); ex_assistant := VStr (lit "yes") |}] =
  Raise (Exception "ValueError"
           (Some (lit "Each JSONL line must have user/assistant or input/output keys"))).
Proof.
  exact (load_lines_refuses_incomplete_object two_examples_json (lit "Shorten.")
           (lit "half" ++ [nl]) [lit "chat" ++ [nl]] _
           [(lit "user", JStr (lit "Q")); (lit "output", JStr (lit "O"))]
           eq_refl eq_refl eq_refl eq_refl).
Defined.

(** X24. When the examples cannot be loaded the run ends before any
    request: ["Failed to load examples: ..."] goes to standard error
    and the exit status is 1. *)
Theorem main_stops_when_loading_fails json_loads read_lines env c a e :
  TopP.ready env c ->
  examples_to_use json_loads read_lines a = Raise e ->
  is_Exception e = true ->
  run (main json_loads read_lines env a) =
  {| events := [Stderr [VFmt [VStr (lit "Failed to load examples: "); VExn e]]];
     ending := Exited 1 |}.
Proof.
  intros Hready Hload Hexc. unfold run.
  now rewrite (main_when_loading_fails json_loads read_lines env c a e Hready Hload Hexc).
Qed.

Lemma main_stops_when_loading_fails_witness :
  TopP.ready (sdk_with TopP.echo_client) TopP.echo_client /\
  run (main no_json blank_file (sdk_with TopP.echo_client)
         (args_with_file (lit "empty.jsonl"))) =
  {| events := [Stderr [VFmt [VStr (lit "Failed to load examples: ");
                              VExn (Exception "ValueError"
                                      (Some (lit "No examples found in JSONL file")))]]];
     ending := Exited 1 |}.
Proof.
  assert (Hready : TopP.ready (sdk_with TopP.echo_client) TopP.echo_client).
  { split; [reflexivity |]. exists (lit "sk-test"). repeat split. }
  split; [exact Hready |].
  exact (main_stops_when_loading_fails no_json blank_file (sdk_with TopP.echo_client)
           TopP.echo_client (args_with_file (lit "empty.jsonl")) _
           Hready eq_refl eq_refl).
Defined.

(** X25. The successful run: after the listing of [--show-prompt], if
    asked for, the script sends one request with the built sequence,
    prints the content of the first choice and ends with status 0. *)
Theorem main_prints_first_choice json_loads read_lines env c a examples content more :
  TopP.ready env c ->
  examples_to_use json_loads read_lines a = Ok examples ->
  create c (prompt_listing a (build_messages examples a))
           (request_for a (build_messages examples a)) = Ok (content :: more) ->
  run (main json_loads read_lines env a) =
  {| events := prompt_listing a (build_messages examples a)
               ++ [ Request (request_for a (build_messages examples a));
                    Stdout [value_of_content content] ];
     ending := Exited 0 |}.
Proof.
  intros Hready Hload Hcreate. unfold run.
  rewrite (main_up_to_request json_loads read_lines env c a examples Hready Hload).
  unfold chat_completions_create, history, print, emit, lift, ret, try_catch, bind.
  cbv beta iota. rewrite Hcreate. simpl first_choice_content. cbv beta iota.
  now rewrite <- app_assoc.
Qed.

Lemma main_prints_first_choice_witness :
  TopP.ready ready_sdk {| create := fun _ _ => Ok [Some (lit "Lunch at noon")] |} /\
  run (main no_json no_files ready_sdk sample_args) =
  {| events := prompt_listing sample_args (build_messages default_examples sample_args)
               ++ [ Request (request_for sample_args
                               (build_messages default_examples sample_args));
                    Stdout [VStr (lit "Lunch at noon")] ];
     ending := Exited 0 |}.
Proof.
  assert (Hready : TopP.ready ready_sdk
                     {| create := fun _ _ => Ok [Some (lit "Lunch at noon")] |}).
  { split; [reflexivity |]. exists (lit "sk-test"). repeat split. }
  split; [exact Hready |].
  exact (main_prints_first_choice no_json no_files ready_sdk _ sample_args
           default_examples (Some (lit "Lunch at noon")) []
           Hready eq_refl eq_refl).
Defined.

(** X26. A request that fails ends the run with
    ["Request failed: ..."] on standard error and exit status 2. *)
Theorem main_stops_when_request_fails json_loads read_lines env c a examples e :
  TopP.ready env c ->
  examples_to_use json_loads read_lines a = Ok examples ->
  create c (prompt_listing a (build_messages examples a))
           (request_for a (build_messages examples a)) = Raise e ->
  is_Exception e = true ->
  run (main json_loads read_lines env a) =
  {| events := prompt_listing a (build_messages examples a)
               ++ [ Request (request_for a (build_messages examples a));
                    Stderr [VFmt [VStr (lit "Request failed: "); VExn e]] ];
     ending := Exited 2 |}.
Proof.
  intros Hready Hload Hcreate Hexc. unfold run.
  rewrite (main_up_to_request json_loads read_lines env c a examples Hready Hload).
  unfold chat_completions_create, history, eprint, emit, lift,
    sys_exit, raise, try_catch, bind.
  cbv beta iota. rewrite Hcreate, Hexc.
  now rewrite <- app_assoc.
Qed.

Lemma main_stops_when_request_fails_witness :
  TopP.ready (sdk_with failing_client) failing_client /\
  run (main no_json no_files (sdk_with failing_client) sample_args) =
  {| events := prompt_listing sample_args (build_messages default_examples sample_args)
               ++ [ Request (request_for sample_args
                               (build_messages default_examples sample_args));
                    Stderr [VFmt [VStr (lit "Request failed: ");
                                  VExn (Exception "APITimeoutError" None)]] ];
     ending := Exited 2 |}.
Proof.
  assert (Hready : TopP.ready (sdk_with failing_client) failing_client).
  { split; [reflexivity |]. exists (lit "sk-test"). repeat split. }
  split; [exact Hready |].
  exact (main_stops_when_request_fails no_json no_files (sdk_with failing_client)
           failing_client sample_args default_examples _
           Hready eq_refl eq_refl eq_refl).
Defined.

(** X27. Without [--examples-file] the script works with the built-in
    examples and neither opens a file nor parses JSON: whatever these
    two would do, the run is the same, and the request that goes out
    (after the listing of [--show-prompt], if asked for) carries the
    sequence built from [default_examples]. *)
Theorem main_without_file_uses_defaults json_loads read_lines env c a :
  opt_truthy (examples_file a) = false ->
  TopP.ready env c ->
  (forall json_loads' read_lines' t,
      main json_loads read_lines env a t = main json_loads' read_lines' env a t) /\
  exists later,
    events (run (main json_loads read_lines env a)) =
    prompt_listing a (build_messages default_examples a)
    ++ Request (request_for a (build_messages default_examples a)) :: later.
Proof.
  intros Hfile Hready. split.
  - intros json_loads' read_lines' t. unfold main.
    destruct (examples_file a) as [[| ch path] |]; simpl in Hfile;
      [reflexivity | discriminate | reflexivity].
  - assert (Hload : examples_to_use json_loads read_lines a = Ok default_examples).
    { unfold examples_to_use.
      destruct (examples_file a) as [[| ch path] |]; simpl in Hfile;
        [reflexivity | discriminate | reflexivity]. }
    destruct (run_prefix (main json_loads read_lines env a)) as [after_run ->].
    rewrite (main_up_to_request json_loads read_lines env c a default_examples
               Hready Hload).
    match goal with
    | |- context [bind (try_catch ?body ?h) ?k ?t] =>
        destruct (bind_prefix (try_catch body h) k t) as [d1 ->];
        [ intros resp; apply extends_bind; [apply extends_lift |];
          intros content; apply extends_bind; [apply extends_emit |];
          intros _; apply extends_ret |];
        destruct (try_catch_prefix body h t) as [d2 ->];
        [ intros e; apply extends_bind; [apply extends_emit |];
          intros _; apply extends_raise |]
    end.
    simpl fst. exists (d2 ++ d1 ++ after_run). now rewrite <- !app_assoc.
Qed.

Lemma main_without_file_uses_defaults_witness :
  TopP.ready ready_sdk {| create := fun _ _ => Ok [Some (lit "Lunch at noon")] |} /\
  main no_json no_files ready_sdk sample_args [] =
  main two_examples_json two_examples_file ready_sdk sample_args [] /\
  exists later,
    events (run (main no_json no_files ready_sdk sample_args)) =
    prompt_listing sample_args (build_messages default_examples sample_args)
    ++ Request (request_for sample_args (build_messages default_examples sample_args))
       :: later.
Proof.
  assert (Hready : TopP.ready ready_sdk
                     {| create := fun _ _ => Ok [Some (lit "Lunch at noon")] |}).
  { split; [reflexivity |]. exists (lit "sk-test"). repeat split. }
  destruct (main_without_file_uses_defaults no_json no_files ready_sdk _ sample_args
              eq_refl Hready) as [Hsame Hsent].
  split; [exact Hready | split; [apply Hsame | exact Hsent]].
Defined.

End FewShotMore.

(* ===================================================================== *)
(** * The start-up checks the scripts share                               *)
(* ===================================================================== *)

Module Startup.

Import Scenarios.

(** X28. Without the SDK both scripts end right after the command
    line has been parsed: the installation hint goes to standard error
    and the exit status is 1, whatever the API key and the parsed
    options are; a [--sweep] is not checked and no request is sent. *)
Theorem scripts_stop_without_sdk py_float float_str json_loads read_lines env e a b :
  import_openai env = Raise e -> is_Exception e = true ->
  run (TopP.main py_float float_str env a) =
  {| events := [sdk_missing_line]; ending := Exited 1 |} /\
  run (FewShot.main json_loads read_lines env b) =
  {| events := [sdk_missing_line]; ending := Exited 1 |}.
Proof.
  intros Himport Hexc.
  split; unfold run, TopP.main, FewShot.main, bind, try_catch, lift;
    rewrite Himport, Hexc; reflexivity.
Qed.

Lemma scripts_stop_without_sdk_witness :
  run (TopP.main TopP.sample_float TopP.sample_float_str sdk_not_installed
         TopP.sweep_above_one) =
  {| events := [sdk_missing_line]; ending := Exited 1 |} /\
  run (FewShot.main FewShot.no_json FewShot.no_files sdk_not_installed
         FewShot.sample_args) =
  {| events := [sdk_missing_line]; ending := Exited 1 |}.
Proof.
  exact (scripts_stop_without_sdk TopP.sample_float TopP.sample_float_str
           FewShot.no_json FewShot.no_files sdk_not_installed _
           TopP.sweep_above_one FewShot.sample_args eq_refl eq_refl).
Defined.

(** X29. With the SDK but no API key, unset or empty, both scripts end
    with the hint to set [OPENAI_API_KEY] on standard error and exit
    status 1; no client is built and no request is sent. *)
Theorem scripts_stop_without_api_key py_float float_str json_loads read_lines env a b :
  import_openai env = Ok tt -> opt_truthy (getenv_api_key env) = false ->
  run (TopP.main py_float float_str env a) =
  {| events := [key_missing_line]; ending := Exited 1 |} /\
  run (FewShot.main json_loads read_lines env b) =
  {| events := [key_missing_line]; ending := Exited 1 |}.
Proof.
  intros Himport Hkey.
  split; unfold run, TopP.main, FewShot.main, bind, try_catch, lift;
    rewrite Himport, Hkey; reflexivity.
Qed.

Lemma scripts_stop_without_api_key_witness :
  run (TopP.main TopP.sample_float TopP.sample_float_str key_not_set
         TopP.top_p_above_one) =
  {| events := [key_missing_line]; ending := Exited 1 |} /\
  run (FewShot.main FewShot.no_json FewShot.no_files key_not_set
         FewShot.sample_args) =
  {| events := [key_missing_line]; ending := Exited 1 |}.
Proof.
  exact (scripts_stop_without_api_key TopP.sample_float TopP.sample_float_str
           FewShot.no_json FewShot.no_files key_not_set
           TopP.top_p_above_one FewShot.sample_args eq_refl eq_refl).
Defined.

End Startup.
